(** * Ninedraft: a shallow embedding of [a3_files/app.py]

    The embedding follows the application module of the game: the item and
    block classes it defines, the two factories [create_block] and
    [create_item], the mob overrides [Sheep.step] and [Bee.step], and the
    methods of the [Ninedraft] application class that resolve mining, route
    effects, place items and handle pickups.

    The classes the module imports ([Player], [World], [Grid], [Stack],
    [Block], [Item], [Mob], ...) live in other files.  Their methods appear
    here as the fields of interface classes ([PlayerOps], [WorldOps], ...),
    so that every statement about [app.py] holds for any implementation of
    them.  Their methods are taken to return normally.  The objects of
    these classes are truthy, so that [if stack:], [if target:] and the
    like only tell an object from [None].  Console output ([print]) and the
    widgets of the user interface are not part of the model. *)

From Stdlib Require Import ZArith QArith Qround Qabs Lqa String List Bool Lia Reals Lra.
From stdpp Require Import base option gmap strings.

Local Open Scope string_scope.
Local Open Scope Z_scope.

(** ** Python values, exceptions and the state/exception monad *)

(** The values that occur inside identifier tuples, effect tuples and drop
    entries: strings and numbers (a Python [int] or [float], kept exact). *)
Inductive PyVal : Type :=
  | PStr (s : string)
  | PNum (q : Q).

(** Python's [==] on these values. *)
Definition py_eqb (a b : PyVal) : bool :=
  match a, b with
  | PStr s, PStr t => String.eqb s t
  | PNum p, PNum q => Qeq_bool p q
  | _, _ => false
  end.

(** [a == "literal"] *)
Definition is_str (a : PyVal) (lit : string) : bool := py_eqb a (PStr lit).

(** The exceptions [app.py] raises, with the value each message is built
    from, and the exceptions of the Python constructs it uses. *)
Inductive exn : Type :=
  | KeyError_no_block (block_id : list PyVal)
  | KeyError_no_item (item_id : list PyVal)
  | KeyError_no_effect (effect : list PyVal)
  | KeyError_unknown_drop_category (drop_category : PyVal)
  | KeyError_key (key : string)
  | IndexError
  | NotImplementedError (msg : string)
  | UnboundLocalError (name : string)
  | ZeroDivisionError.

Inductive result (A : Type) : Type :=
  | Return (a : A)
  | Raise (e : exn).
Arguments Return {A} a.
Arguments Raise {A} e.

(** A method of an object with state [S]: it returns or raises, and in both
    cases leaves a state behind (a raise does not roll mutations back). *)
Definition M (S A : Type) : Type := S -> result A * S.

Definition ret {S A} (a : A) : M S A := fun s => (Return a, s).
Definition raise {S A} (e : exn) : M S A := fun s => (Raise e, s).
Definition bind {S A B} (m : M S A) (k : A -> M S B) : M S B :=
  fun s => match m s with
           | (Return a, s') => k a s'
           | (Raise e, s') => (Raise e, s')
           end.
Definition get {S} : M S S := fun s => (Return s, s).
Definition modify {S} (f : S -> S) : M S unit := fun s => (Return tt, f s).
Definition lift {S A} (r : result A) : M S A := fun s => (r, s).

Declare Scope py_scope.
Delimit Scope py_scope with py.
Notation "x <- m ;; k" := (bind m (fun x => k))
  (at level 100, m at next level, right associativity) : py_scope.
Notation "m ;;; k" := (bind m (fun _ => k))
  (at level 100, right associativity) : py_scope.

(** ** Items *)

(** [ToolItem]: identifier, tool type, current and maximal durability.  The
    factory only builds tools with integral durability. *)
Record ToolItem : Type := mkToolItem {
  tool_id : string;
  _tool_type : string;
  _durability : Z;
  _max_durability : Z
}.

Module Tool.

(** [ToolItem.__init__] *)
Definition init (item_id tool_type : string) (durability : Z) : ToolItem :=
  mkToolItem item_id tool_type durability durability.

Definition get_type (self : ToolItem) : string := _tool_type self.
Definition get_durability (self : ToolItem) : Z := _durability self.
Definition get_max_durability (self : ToolItem) : Z := _max_durability self.

(** [can_attack] returns [True] when durability is positive and falls off
    the end (returning [None], which is falsy) otherwise. *)
Definition can_attack (self : ToolItem) : bool := 0 <? _durability self.

(** [attack]: [if not successful: self._durability -= 1] *)
Definition attack (successful : bool) (self : ToolItem) : ToolItem :=
  if negb successful
  then mkToolItem (tool_id self) (_tool_type self)
                  (_durability self - 1) (_max_durability self)
  else self.

(** A sequence of [attack] calls on the same tool, first call first. *)
Definition attacks (calls : list bool) (self : ToolItem) : ToolItem :=
  fold_left (fun t successful => attack successful t) calls self.

(** Durability never increases along [calls], call by call. *)
Fixpoint non_increasing (calls : list bool) (self : ToolItem) : Prop :=
  match calls with
  | [] => True
  | successful :: rest =>
      _durability (attack successful self) <= _durability self /\
      non_increasing rest (attack successful self)
  end.

(** Every call of the sequence is made on a tool that [can_attack], which
    is the condition under which [get_holding] hands the tool to
    [mine_block] as the effective item. *)
Fixpoint each_call_able (calls : list bool) (self : ToolItem) : Prop :=
  match calls with
  | [] => True
  | successful :: rest =>
      can_attack self = true /\ each_call_able rest (attack successful self)
  end.

End Tool.

(** A drop or placement entry [(category, payload)]; the payload is a tuple. *)
Definition Drop : Type := PyVal * list PyVal.

(** The item objects [create_item] returns and the hot bar holds.  [PlainItem]
    is the base class [Item] itself; [BeeMob] is the [Bee] that
    [create_item("swarming_bee")] returns. *)
Inductive Item : Type :=
  | ATool (t : ToolItem)
  | BowArrowItem (item_id tool_type : string) (durability : PyVal)
  | FoodItem (item_id : string) (strength : Q)
  | HandItem (item_id : string)
  | SimpleItem (item_id : string)
  | BlockItem (item_id : string)
  | PlainItem (item_id : string)
  | BeeMob (mob_id : string) (size : Z).

(** Methods the item classes inherit from, or that are defined by, classes
    of [item.py]. *)
Class ItemBase : Type := {
  inherited_can_attack : Item -> bool;
  inherited_attack : bool -> Item -> Item;
  inherited_place : Item -> option (list Drop)
}.

Module Items.
Section Methods.
Context `{ItemBase}.

(** [can_attack]: [FoodItem] returns [False], [BowArrowItem] returns [None]. *)
Definition can_attack (self : Item) : bool :=
  match self with
  | ATool t => Tool.can_attack t
  | BowArrowItem _ _ _ => false
  | FoodItem _ _ => false
  | _ => inherited_can_attack self
  end.

(** [attack]: [BowArrowItem.attack] only returns its argument. *)
Definition attack (successful : bool) (self : Item) : Item :=
  match self with
  | ATool t => ATool (Tool.attack successful t)
  | BowArrowItem _ _ _ => self
  | _ => inherited_attack successful self
  end.

(** [place]: the body of [ToolItem.place] and [BowArrowItem.place] is
    [pass]; [FoodItem.place] returns one effect entry. *)
Definition place (self : Item) : option (list Drop) :=
  match self with
  | ATool _ => None
  | BowArrowItem _ _ _ => None
  | FoodItem _ strength => Some [(PStr "effect", [PStr "food"; PNum strength])]
  | _ => inherited_place self
  end.

End Methods.
End Items.

(** [DroppedItem(item)]: the physical body that wraps an item lying in the
    world. *)
Record DroppedItem : Type := mkDroppedItem { get_item : Item }.

(** ** Stacks and grids *)

(** Modelled from the spec: a [Stack] is an (item, quantity) pair. *)
Record Stack : Type := mkStack { stack_item : Item; stack_quantity : Z }.

(** Modelled from the spec: [Stack.subtract] lowers the quantity. *)
Definition subtract (n : Z) (s : Stack) : Stack :=
  mkStack (stack_item s) (stack_quantity s - n).

(** Modelled from the spec: a [Grid] maps (row, column) to a stack or to
    nothing; a [SelectableGrid] also tracks one selected cell. *)
Record Grid : Type := mkGrid {
  cells : gmap (nat * nat) Stack;
  selected : option (nat * nat)
}.

Definition get_selected (g : Grid) : option (nat * nat) := selected g.

(** [grid[position]] *)
Definition getitem (position : nat * nat) (g : Grid) : option Stack :=
  cells g !! position.

(** [grid[position] = value]; assigning [None] empties the cell. *)
Definition setitem (position : nat * nat) (value : option Stack) (g : Grid) : Grid :=
  match value with
  | Some s => mkGrid (<[position := s]> (cells g)) (selected g)
  | None => mkGrid (delete position (cells g)) (selected g)
  end.

Definition get_selected_value (g : Grid) : option Stack :=
  match selected g with
  | Some position => getitem position g
  | None => None
  end.

(** The grid once one unit of the stack at [position] is used up: the
    stack has one less, and the cell is emptied if that leaves 0. *)
Definition one_used (position : nat * nat) (stack : Stack) (g : Grid) : Grid :=
  let g := setitem position (Some (subtract 1 stack)) g in
  if stack_quantity stack - 1 =? 0 then setitem position None g else g.

(** [Grid.add_item(item)]: tells whether the grid took the item. *)
Class GridOps : Type := {
  add_item_to_grid : Item -> Grid -> bool * Grid
}.

(** ** Blocks *)

(** A break table maps a tool type to (time to break, tool is effective), as
    [BowArrowItem._break_table] does. *)
Abbreviation BreakTable := (gmap string (Q * bool)).

(** The classes of the blocks [create_block] builds, each with the
    arguments of its constructor call. *)
Inductive BlockClass : Type :=
  | LeafBlock
  | ResourceBlock (block_id : string) (break_table : BreakTable)
  | CraftingTableBlock (block_id : string) (break_table : BreakTable)
  | DiamondBlock (block_id : string) (break_table : BreakTable)
  | WoolBlock (block_id : string) (break_table : BreakTable)
  | BedBlock (block_id : string) (break_table : BreakTable)
  | HoneyBlock (block_id : string) (break_table : BreakTable)
  | HiveBlock (block_id : string) (break_table : BreakTable)
  | Furnace (block_id : string) (break_table : BreakTable)
  | TrickCandleFlameBlock (stage : PyVal).

(** The constants [app.py] imports from [block.py] and [item.py]. *)
Class Tables : Type := {
  BREAK_TABLES : gmap string BreakTable;
  MATERIAL_TOOL_TYPES : gset string;
  TOOL_DURABILITIES : gmap string Z
}.

(** [key in d] for a dictionary with string keys. *)
Definition in_dict {V} (key : PyVal) (d : gmap string V) : bool :=
  match key with
  | PStr s => bool_decide (is_Some (d !! s))
  | PNum _ => false
  end.

(** [key in s] for a collection of strings. *)
Definition in_set (key : PyVal) (s : gset string) : bool :=
  match key with
  | PStr k => bool_decide (k ∈ s)
  | PNum _ => false
  end.

(** [d[key]] *)
Definition subscript {V} (d : gmap string V) (key : string) : result V :=
  match d !! key with
  | Some v => Return v
  | None => Raise (KeyError_key key)
  end.

Definition and_then {A B} (r : result A) (k : A -> result B) : result B :=
  match r with
  | Return a => k a
  | Raise e => Raise e
  end.

Definition BLOCK_SIZE : Z := 2 ^ 5.
Definition GRID_WIDTH : Z := 2 ^ 5.
Definition GRID_HEIGHT : Z := 2 ^ 4.

(** The position [mine_block] gives the item of drop [i] of a block at
    [(x0, y0)]; [jitter] is the pair of [random.randint(0, 2)] samples. *)
Definition item_position (x0 y0 : Z) (jitter : Z * Z) (i : nat) : Z * Z :=
  (x0 - BLOCK_SIZE / 2 + 5 + (Z.of_nat i mod 3) * 11 + fst jitter,
   y0 - BLOCK_SIZE / 2 + 5 + ((Z.of_nat i / 3) mod 3) * 11 + snd jitter).

Section Factories.
Context `{Tables}.

(** [create_block], called with the identifier tuple [block_id]. *)
Definition create_block (block_id : list PyVal) : result BlockClass :=
  match block_id with
  | [PStr b] =>
      if String.eqb b "leaf" then Return LeafBlock
      else if in_dict (PStr b) BREAK_TABLES then
        and_then (subscript BREAK_TABLES b) (fun t => Return (ResourceBlock b t))
      else if String.eqb b "crafting_table" then
        and_then (subscript BREAK_TABLES "wood") (fun t => Return (CraftingTableBlock b t))
      else if String.eqb b "diamond" then
        and_then (subscript BREAK_TABLES "stone") (fun t => Return (DiamondBlock b t))
      else if String.eqb b "wool" then
        and_then (subscript BREAK_TABLES "wood") (fun t => Return (WoolBlock b t))
      else if String.eqb b "bed" then
        and_then (subscript BREAK_TABLES "wood") (fun t => Return (BedBlock b t))
      else if String.eqb b "honey" then
        and_then (subscript BREAK_TABLES "wood") (fun t => Return (HoneyBlock "honey" t))
      else if String.eqb b "furnace" then
        and_then (subscript BREAK_TABLES "stone") (fun t => Return (Furnace b t))
      else if String.eqb b "hive" then
        and_then (subscript BREAK_TABLES "wood") (fun t => Return (HiveBlock b t))
      else Raise (KeyError_no_block block_id)
  | [PNum _] => Raise (KeyError_no_block block_id)
  | [] => Raise IndexError
  | b0 :: b1 :: _ =>
      if is_str b0 "mayhem" then Return (TrickCandleFlameBlock b1)
      else Raise (KeyError_no_block block_id)
  end.

(** The chain of tool cases of [create_item], taken once both identifiers
    are registered. *)
Definition create_tool (kind material : PyVal) : option Item :=
  let pair_is k m := is_str kind k && is_str material m in
  if pair_is "pickaxe" "stone" then Some (ATool (Tool.init "stone_pickaxe" "pickaxe" 132))
  else if pair_is "pickaxe" "diamond" then Some (ATool (Tool.init "diamond_pickaxe" "pickaxe" 1562))
  else if pair_is "pickaxe" "wood" then Some (ATool (Tool.init "wood_pickaxe" "pickaxe" 60))
  else if pair_is "axe" "wood" then Some (ATool (Tool.init "wood_axe" "axe" 60))
  else if pair_is "shovel" "wood" then Some (ATool (Tool.init "wood_shovel" "shovel" 60))
  else if pair_is "sword" "wood" then Some (ATool (Tool.init "wood_sword" "sword" 60))
  else if pair_is "axe" "stone" then Some (ATool (Tool.init "stone_axe" "axe" 132))
  else if pair_is "shovel" "stone" then Some (ATool (Tool.init "stone_shovel" "shovel" 132))
  else if pair_is "sword" "stone" then Some (ATool (Tool.init "stone_sword" "sword" 132))
  else if pair_is "bow" "arrow" then Some (BowArrowItem "bow_arrow" "arrow" (PStr "inf"))
  else None.

(** The chain of one-identifier cases of [create_item]. *)
Definition create_simple (item_type : string) : option Item :=
  let type_is k := String.eqb item_type k in
  if type_is "hands" then Some (HandItem "hands")
  else if type_is "bow" then Some (SimpleItem "bow")
  else if type_is "arrow" then Some (SimpleItem "arrow")
  else if type_is "dirt" then Some (BlockItem item_type)
  else if type_is "wood" then Some (BlockItem item_type)
  else if type_is "stone" then Some (BlockItem item_type)
  else if type_is "apple" then Some (FoodItem item_type 2)
  else if type_is "stick" then Some (SimpleItem item_type)
  else if type_is "crafting_table" then Some (BlockItem item_type)
  else if type_is "wool" then Some (BlockItem item_type)
  else if type_is "bed" then Some (BlockItem item_type)
  else if type_is "honey" then Some (BlockItem item_type)
  else if type_is "furnace" then Some (BlockItem item_type)
  else if type_is "diamond" then Some (BlockItem item_type)
  else if type_is "swarming_bee" then Some (BeeMob "_draw_bee" 5)
  else if type_is "hive" then Some (BlockItem item_type)
  else None.

(** [create_item], called with the identifier tuple [item_id]: every path that does not return reaches the
    final [raise KeyError]. *)
Definition create_item (item_id : list PyVal) : result Item :=
  let found :=
    match item_id with
    | [kind; material] =>
        if in_set kind MATERIAL_TOOL_TYPES && in_dict material TOOL_DURABILITIES
        then create_tool kind material
        else None
    | [PStr item_type] => create_simple item_type
    | _ => None
    end in
  match found with
  | Some item => Return item
  | None => Raise (KeyError_no_item item_id)
  end.

End Factories.

(** ** The collaborators of the application class *)

(** [a < b] on exact numbers. *)
Definition Qltb (a b : Q) : bool := negb (Qle_bool b a).

(** The methods of [Player] the application calls, and its [_max_food]
    attribute. *)
Class PlayerOps (Player : Type) : Type := {
  get_food : Player -> Q;
  _max_food : Player -> Q;
  change_food : PyVal -> Player -> Player;
  change_health : PyVal -> Player -> Player
}.

(** Block objects: [new_block] runs the constructor of a class,
    [class_of] tells which class (and constructor arguments) an object
    has; the other fields are the methods every block inherits.  [mine]
    takes the effective item, the active item and the luck, answers
    (item was suitable, attack was successful) and leaves the block with
    its new mining progress. *)
Class BlockOps (Block : Type) : Type := {
  new_block : BlockClass -> Block;
  class_of : Block -> BlockClass;
  mine : Item -> Item -> Q -> Block -> (bool * bool) * Block;
  is_mined : Block -> bool;
  get_position : Block -> Z * Z;
  inherited_get_drops : Q -> bool -> Block -> option (list Drop)
}.

(** The physical things a world holds. *)
Inductive Thing (Block : Type) : Type :=
  | ThingBlock (b : Block)
  | ThingDroppedItem (d : DroppedItem)
  | ThingSheep
  | ThingBee
  | ThingOther (class_name : string).
Arguments ThingBlock {Block} b.
Arguments ThingDroppedItem {Block} d.
Arguments ThingSheep {Block}.
Arguments ThingBee {Block}.
Arguments ThingOther {Block} class_name.

(** [use] for the things whose class does not define it in [app.py]. *)
Class ThingOps (Block : Type) : Type := {
  inherited_use : Thing Block -> option (list PyVal)
}.

(** The methods of [World] the application calls; positions are pixel
    coordinates. *)
Class WorldOps (World Block : Type) : Type := {
  remove_item : Thing Block -> World -> World;
  add_item : DroppedItem -> Z -> Z -> World -> World;
  add_block : Block -> Z -> Z -> World -> World;
  get_block : Z -> Z -> World -> option Block;
  get_thing : Z -> Z -> World -> option (Thing Block)
}.

(** [GridCrafter(recipes, rows, columns)] and the window built around it. *)
Record GridCrafter : Type := mkGridCrafter {
  crafter_recipes : list (list (list (option string)) * Stack);
  crafter_rows : nat;
  crafter_columns : nat
}.

Record CraftingWindow : Type := mkCraftingWindow {
  window_title : PyVal;
  window_crafter : GridCrafter
}.

(** [[('item', (item_id,))] * n] *)
Definition item_drops (item_id : string) (n : nat) : list Drop :=
  repeat (PStr "item", [PStr item_id]) n.

Section Blocks.
Context {Block : Type} `{BlockOps Block}.

(** [get_drops(luck, correct_item_used)] of the block classes of [app.py]:
    each returns its list when the correct item was used and falls off the
    end (returning [None]) otherwise. *)
Definition get_drops (luck : Q) (correct_item_used : bool) (self : Block)
  : option (list Drop) :=
  let when_correct drops := if correct_item_used then Some drops else None in
  match class_of self with
  | CraftingTableBlock id _ => when_correct (item_drops id 1)
  | DiamondBlock id _ => when_correct (item_drops id 1)
  | WoolBlock id _ => when_correct (item_drops id 1)
  | BedBlock id _ => when_correct (item_drops id 1)
  | HoneyBlock id _ => when_correct (item_drops id 5)
  | HiveBlock _ _ => when_correct (item_drops "bee" 5)
  | Furnace id _ => when_correct (item_drops id 1)
  | LeafBlock | ResourceBlock _ _ | TrickCandleFlameBlock _ =>
      inherited_get_drops luck correct_item_used self
  end.

End Blocks.

Section Things.
Context {Block : Type} `{BlockOps Block} `{ThingOps Block}.

(** [thing.use()]: a crafting table answers with a crafting effect, the
    other classes of [app.py] with [None]. *)
Definition use (self : Thing Block) : option (list PyVal) :=
  match self with
  | ThingBlock b =>
      match class_of b with
      | CraftingTableBlock _ _ => Some [PStr "crafting"; PStr "crafting_table"]
      | DiamondBlock _ _ | WoolBlock _ _ | BedBlock _ _ | HoneyBlock _ _
      | HiveBlock _ _ | Furnace _ _ => None
      | LeafBlock | ResourceBlock _ _ | TrickCandleFlameBlock _ => inherited_use self
      end
  | ThingSheep | ThingBee => None
  | ThingDroppedItem _ | ThingOther _ => inherited_use self
  end.

End Things.

(** ** The application class *)

Section App.
Context {Player World Block : Type}.
Context `{ItemBase} `{GridOps} `{Tables}.
Context `{PlayerOps Player} `{BlockOps Block} `{ThingOps Block} `{WorldOps World Block}.

(** The attributes of a [Ninedraft] object that the modelled methods read
    or write. *)
Record Ninedraft : Type := mkNinedraft {
  _world : World;
  _player : Player;
  _hot_bar : Grid;
  _inventory : Grid;
  _hands : Item;
  _crafting_window : option CraftingWindow;
  _target_position : Z * Z
}.

Definition set_world (f : World -> World) (self : Ninedraft) : Ninedraft :=
  mkNinedraft (f (_world self)) (_player self) (_hot_bar self) (_inventory self)
              (_hands self) (_crafting_window self) (_target_position self).
Definition set_player (f : Player -> Player) (self : Ninedraft) : Ninedraft :=
  mkNinedraft (_world self) (f (_player self)) (_hot_bar self) (_inventory self)
              (_hands self) (_crafting_window self) (_target_position self).
Definition set_hot_bar (f : Grid -> Grid) (self : Ninedraft) : Ninedraft :=
  mkNinedraft (_world self) (_player self) (f (_hot_bar self)) (_inventory self)
              (_hands self) (_crafting_window self) (_target_position self).
Definition set_inventory (f : Grid -> Grid) (self : Ninedraft) : Ninedraft :=
  mkNinedraft (_world self) (_player self) (_hot_bar self) (f (_inventory self))
              (_hands self) (_crafting_window self) (_target_position self).
Definition set_hands (f : Item -> Item) (self : Ninedraft) : Ninedraft :=
  mkNinedraft (_world self) (_player self) (_hot_bar self) (_inventory self)
              (f (_hands self)) (_crafting_window self) (_target_position self).
Definition set_crafting_window (w : CraftingWindow) (self : Ninedraft) : Ninedraft :=
  mkNinedraft (_world self) (_player self) (_hot_bar self) (_inventory self)
              (_hands self) (Some w) (_target_position self).

(** *** [get_holding] *)

(** [get_holding] returns (active item, effective item). *)
Definition get_holding (self : Ninedraft) : Item * Item :=
  let active_stack := get_selected_value (_hot_bar self) in
  let active_item :=
    match active_stack with
    | Some stack => stack_item stack
    | None => _hands self
    end in
  let effective_item :=
    if Items.can_attack active_item then active_item else _hands self in
  (active_item, effective_item).

(** The effective item is an object shared with the hot bar (the item of
    the selected stack) or the [_hands] attribute; this tells which: the
    position of the stack, or [None] for the hands. *)
Definition effective_item_owner (self : Ninedraft) : option (nat * nat) :=
  match selected (_hot_bar self) with
  | Some position =>
      match getitem position (_hot_bar self) with
      | Some stack => if Items.can_attack (stack_item stack) then Some position else None
      | None => None
      end
  | None => None
  end.

(** A method call that mutates the effective item, seen through its owner. *)
Definition update_effective_item (f : Item -> Item) (self : Ninedraft) : Ninedraft :=
  match effective_item_owner self with
  | Some position =>
      set_hot_bar (fun g =>
        match getitem position g with
        | Some stack =>
            setitem position (Some (mkStack (f (stack_item stack)) (stack_quantity stack))) g
        | None => g
        end) self
  | None => set_hands f self
  end.

(** *** [mine_block] *)

(** One iteration of the loop over [enumerate(drops)].  [x0, y0] is the
    position of the mined block, [jitter] the two [random.randint(0, 2)]
    samples of this iteration, [(x, y)] the current value of the local
    variables [x] and [y]; the iteration returns their new value. *)
Definition dispatch_drop (x0 y0 : Z) (jitter : Z * Z) (i : nat) (drop : Drop)
    (xy : Z * Z) : M Ninedraft (Z * Z) :=
  let '(drop_category, drop_types) := drop in
  let '(x, y) := xy in
  if is_str drop_category "item" then
    (item <- lift (create_item drop_types) ;;
     let physical := mkDroppedItem item in
     let x := x0 - BLOCK_SIZE / 2 + 5 + (Z.of_nat i mod 3) * 11 + fst jitter in
     let y := y0 - BLOCK_SIZE / 2 + 5 + ((Z.of_nat i / 3) mod 3) * 11 + snd jitter in
     modify (set_world (add_item physical x y)) ;;;
     ret (x, y))%py
  else if is_str drop_category "block" then
    (block <- lift (create_block drop_types) ;;
     modify (set_world (add_block (new_block block) x y)) ;;;
     ret (x, y))%py
  else raise (KeyError_unknown_drop_category drop_category).

(** The loop [for i, (drop_category, drop_types) in enumerate(drops)],
    started at index [i]. *)
Fixpoint dispatch_drops (x0 y0 : Z) (randint : nat -> Z * Z) (i : nat)
    (drops : list Drop) (xy : Z * Z) : M Ninedraft unit :=
  match drops with
  | [] => ret tt
  | drop :: rest =>
      (xy' <- dispatch_drop x0 y0 (randint i) i drop xy ;;
       dispatch_drops x0 y0 randint (S i) rest xy')%py
  end.

(** The body of [if block.is_mined():].  [drops] is assigned only under
    [if luck < 1:], so reading it afterwards can find it unbound. *)
Definition after_mined (luck : Q) (randint : nat -> Z * Z)
    (was_item_suitable : bool) (block : Block) (x y : Z) : M Ninedraft unit :=
  (self <- get ;;
   (if Qltb 0 (get_food (_player self))
    then modify (set_player (change_food (PNum (-(1#2)))))
    else modify (set_player (change_health (PNum (-(5#2)))))) ;;;
   modify (set_world (remove_item (ThingBlock block))) ;;;
   let drops :=
     if Qltb luck 1 then Some (get_drops luck was_item_suitable block) else None in
   match drops with
   | None => raise (UnboundLocalError "drops")
   | Some None | Some (Some []) => ret tt
   | Some (Some drops) =>
       let '(x0, y0) := get_position block in
       dispatch_drops x0 y0 randint 0 drops (x, y)
   end)%py.

(** [mine_block(block, x, y)].  [luck] is the [random.random()] sample and
    [randint i] the pair of [random.randint(0, 2)] samples drawn while drop
    [i] is handled.  The block is an object of the world; its state after
    the call is returned next to the outcome. *)
Definition mine_block (luck : Q) (randint : nat -> Z * Z) (block : Block) (x y : Z)
    (self : Ninedraft) : (result unit * Ninedraft) * Block :=
  let '(active_item, effective_item) := get_holding self in
  let '((was_item_suitable, was_attack_successful), block) :=
    mine effective_item active_item luck block in
  let self := update_effective_item (Items.attack was_attack_successful) self in
  if is_mined block
  then (after_mined luck randint was_item_suitable block x y self, block)
  else ((Return tt, self), block).

(** *** [_trigger_crafting] and [run_effect] *)

(** One entry of a recipe table: the pattern and [Stack(create_item(...), n)]. *)
Definition recipe (pattern : list (list (option string))) (item_id : list PyVal)
    (quantity : Z) : result (list (list (option string)) * Stack) :=
  and_then (create_item item_id) (fun item => Return (pattern, mkStack item quantity)).

(** The entries of a table literal are evaluated in order. *)
Fixpoint table {A} (entries : list (result A)) : result (list A) :=
  match entries with
  | [] => Return []
  | entry :: rest =>
      and_then entry (fun a => and_then (table rest) (fun l => Return (a :: l)))
  end.

Definition CRAFTING_RECIPES_2x2 : result (list (list (list (option string)) * Stack)) :=
  let w := Some "wood" in let d := Some "dirt" in
  let s := Some "stone" in let a := Some "apple" in
  table [
    recipe [[None; w]; [None; w]] [PStr "stick"] 4;
    recipe [[w; w]; [w; w]] [PStr "crafting_table"] 1;
    recipe [[d; d]; [d; d]] [PStr "wood"] 1;
    recipe [[s; s]; [s; s]] [PStr "diamond"] 1;
    recipe [[a; a]; [a; a]] [PStr "honey"] 1 ].

(** The 3x3 table is a Python set; its entries are listed in source order. *)
Definition CRAFTING_RECIPES_3x3 : result (list (list (list (option string)) * Stack)) :=
  let n := @None string in
  let w := Some "wood" in let s := Some "stone" in let d := Some "diamond" in
  let k := Some "stick" in let l := Some "wool" in
  table [
    recipe [[n; n; n]; [n; w; n]; [n; w; n]] [PStr "stick"] 16;
    recipe [[w; w; w]; [n; k; n]; [n; k; n]] [PStr "pickaxe"; PStr "wood"] 1;
    recipe [[s; s; s]; [n; k; n]; [n; k; n]] [PStr "pickaxe"; PStr "stone"] 1;
    recipe [[d; d; d]; [n; k; n]; [n; k; n]] [PStr "pickaxe"; PStr "diamond"] 1;
    recipe [[w; w; n]; [w; k; n]; [n; k; n]] [PStr "axe"; PStr "wood"] 1;
    recipe [[s; s; n]; [w; k; n]; [n; k; n]] [PStr "axe"; PStr "stone"] 1;
    recipe [[n; w; n]; [n; k; n]; [n; k; n]] [PStr "shovel"; PStr "wood"] 1;
    recipe [[n; s; n]; [n; k; n]; [n; k; n]] [PStr "shovel"; PStr "stone"] 1;
    recipe [[n; w; n]; [n; w; n]; [n; k; n]] [PStr "sword"; PStr "wood"] 1;
    recipe [[n; s; n]; [n; s; n]; [n; k; n]] [PStr "sword"; PStr "stone"] 1;
    recipe [[n; n; n]; [l; l; l]; [w; w; w]] [PStr "bed"] 1;
    recipe [[s; s; s]; [s; n; s]; [s; s; s]] [PStr "furnace"] 1 ].

(** [_trigger_crafting(craft_type)]: both tables are built, then the
    crafter for the surface is chosen and the window opened on it. *)
Definition _trigger_crafting (craft_type : PyVal) : M Ninedraft unit :=
  (recipes_2x2 <- lift CRAFTING_RECIPES_2x2 ;;
   recipes_3x3 <- lift CRAFTING_RECIPES_3x3 ;;
   let crafter :=
     if is_str craft_type "basic"
     then mkGridCrafter recipes_2x2 2 2
     else mkGridCrafter recipes_3x3 3 3 in
   modify (set_crafting_window (mkCraftingWindow craft_type crafter)))%py.

(** [run_effect(effect)] *)
Definition run_effect (effect : list PyVal) : M Ninedraft unit :=
  match effect with
  | [kind; payload] =>
      if is_str kind "crafting" then
        let craft_type := payload in
        _trigger_crafting craft_type
      else if is_str kind "food" || is_str kind "health" then
        let strength := payload in
        (self <- get ;;
         if Qltb (get_food (_player self)) (_max_food (_player self))
         then modify (set_player (change_food strength))
         else modify (set_player (change_health strength)))%py
      else raise (KeyError_no_effect effect)
  | _ => raise (KeyError_no_effect effect)
  end.

(** *** [_right_click] *)

(** [_right_click(event)]; [event] is the pixel position of the click. *)
Definition _right_click (event : Z * Z) : M Ninedraft unit :=
  fun self =>
  let '(x, y) := _target_position self in
  match get_thing x y (_world self) with
  | Some target =>
      match use target with
      | None | Some [] => (Return tt, self)
      | Some effect => run_effect effect self
      end
  | None =>
      match get_selected (_hot_bar self) with
      | None => (Return tt, self)
      | Some selected =>
          match getitem selected (_hot_bar self) with
          | None => (Return tt, self)
          | Some stack =>
              let drops := Items.place (stack_item stack) in
              (* [stack.subtract(1)] mutates the stack held by the hot bar *)
              let stack := subtract 1 stack in
              let self := set_hot_bar (setitem selected (Some stack)) self in
              let self :=
                if stack_quantity stack =? 0
                then set_hot_bar (setitem selected None) self
                else self in
              match drops with
              | None | Some [] => (Return tt, self)
              | Some (_ :: _ :: _) =>
                  (Raise (NotImplementedError "Cannot handle dropping more than 1 thing"), self)
              | Some [(drop_category, drop_types)] =>
                  let '(x, y) := event in
                  if is_str drop_category "block" then
                    match get_block x y (_world self) with
                    | None =>
                        match drop_types with
                        | [] => (Raise IndexError, self)
                        | block_id :: _ =>
                            (block <- lift (create_block [block_id]) ;;
                             modify (set_world (add_block (new_block block) x y)))%py self
                        end
                    | Some _ =>
                        (Raise (NotImplementedError
                           "Automatically placing a block nearby if the target cell is full is not yet implemented"),
                         self)
                    end
                  else if is_str drop_category "effect" then run_effect drop_types self
                  else (Raise (KeyError_unknown_drop_category drop_category), self)
              end
          end
      end
  end.

(** *** [_handle_player_collide_item] *)

(** The collision callback for (player, dropped item): [True] tells the
    world that the collision is valid, [False] that it is to be ignored. *)
Definition _handle_player_collide_item (dropped_item : DroppedItem)
    (self : Ninedraft) : bool * Ninedraft :=
  let item := get_item dropped_item in
  let '(added, hot_bar) := add_item_to_grid item (_hot_bar self) in
  let self := set_hot_bar (fun _ => hot_bar) self in
  if added then
    (false, set_world (remove_item (ThingDroppedItem dropped_item)) self)
  else
    let '(added, inventory) := add_item_to_grid item (_inventory self) in
    let self := set_inventory (fun _ => inventory) self in
    if added then
      (false, set_world (remove_item (ThingDroppedItem dropped_item)) self)
    else (true, self).

End App.

(** ** Mobs *)

(** The attributes of a [Mob] that [Sheep.step] and [Bee.step] read or
    write.  Health, tempo and velocity are Python floats, taken here as
    real numbers. *)
Record Mob : Type := mkMob {
  _steps : Z;
  _health : R;
  _max_health : R;
  _tempo : R;
  get_velocity : R * R
}.

Definition set_velocity (velocity : R * R) (self : Mob) : Mob :=
  mkMob (_steps self) (_health self) (_max_health self) (_tempo self) velocity.

(** [Mob.step], the step of the base class. *)
Class MobBase : Type := {
  super_step : R -> Mob -> Mob
}.

(** [cmath.rect(r, phi)], as (real part, imaginary part). *)
Definition rect (r phi : R) : R * R := ((r * cos phi)%R, (r * sin phi)%R).

(** [a / b] on floats. *)
Definition py_div (a b : R) : result R :=
  if Req_dec_T b 0%R then Raise ZeroDivisionError else Return (a / b)%R.

Definition SHEEP_GRAVITY_FACTOR : R := 100%R.
Definition BEE_GRAVITY_FACTOR : R := 200%R.

(** The change of velocity between two states of a mob. *)
Definition velocity_delta (before after : Mob) : R * R :=
  ((fst (get_velocity after) - fst (get_velocity before))%R,
   (snd (get_velocity after) - snd (get_velocity before))%R).

(** The impulse as the specification words it: the polar-to-rectangular
    conversion of magnitude [tempo * (health / max_health)] at angle
    [theta], less the species bias on the vertical axis, with no scaling
    of either axis. *)
Definition unscaled_impulse (bias : R) (self : Mob) (theta : R) : R * R :=
  let m := (_tempo self * (_health self / _max_health self))%R in
  ((m * cos theta)%R, (m * sin theta - bias)%R).

Module Sheep.

(** The self-propulsion of [Sheep.step]: the body of
    [if self._steps % 100 == 0:]; [theta] is the sample
    [random.uniform(0, 2 * cmath.pi)]. *)
Definition propel (theta : R) (self : Mob) : result Mob :=
  if _steps self mod 100 =? 0 then
    and_then (py_div (_health self) (_max_health self)) (fun health_percentage =>
    let z := rect (_tempo self * health_percentage) theta in
    let '(dx, dy) := ((fst z * 2)%R, snd z) in
    let '(x, y) := get_velocity self in
    let velocity := ((x + dx)%R, (y + dy - SHEEP_GRAVITY_FACTOR)%R) in
    Return (set_velocity velocity self))
  else Return self.

(** [Sheep.step(time_delta, game_data)] *)
Definition step `{MobBase} (time_delta theta : R) (self : Mob) : result Mob :=
  and_then (propel theta self) (fun self => Return (super_step time_delta self)).

End Sheep.

Module Bee.

(** The self-propulsion of [Bee.step]: the body of
    [if self._steps % 20 == 0:]. *)
Definition propel (theta : R) (self : Mob) : result Mob :=
  if _steps self mod 20 =? 0 then
    and_then (py_div (_health self) (_max_health self)) (fun health_percentage =>
    let z := rect (_tempo self * health_percentage) theta in
    let '(dx, dy) := ((fst z * (3 / 2))%R, snd z) in
    let '(x, y) := get_velocity self in
    let velocity := ((x + dx)%R, (y + dy - BEE_GRAVITY_FACTOR)%R) in
    Return (set_velocity velocity self))
  else Return self.

(** [Bee.step(time_delta, game_data)] *)
Definition step `{MobBase} (time_delta theta : R) (self : Mob) : result Mob :=
  and_then (propel theta self) (fun self => Return (super_step time_delta self)).

End Bee.

(** ** Further parts of the application module *)

(** *** [StatusView] *)

(** Python's [round(x)] on a float: the nearest integer, a tie going to the
    even one. *)
Definition py_round (x : Q) : Z :=
  let below := Qfloor x in
  let rest := (x - inject_Z below)%Q in
  if Qltb rest (1 # 2) then below
  else if Qltb (1 # 2) rest then below + 1
  else if Z.even below then below else below + 1.

(** The numbers on the two labels of a [StatusView]. *)
Record StatusView : Type := mkStatusView {
  _health_label : Q;
  _food_label : Q
}.

Module Status.

(** The number [set_health] and [set_food] format: [round(value * 2) / 2]. *)
Definition shown (value : Q) : Q := (inject_Z (py_round (value * 2)) / 2)%Q.

Definition set_health (health : Q) (self : StatusView) : StatusView :=
  mkStatusView (shown health) (_food_label self).

Definition set_food (food : Q) (self : StatusView) : StatusView :=
  mkStatusView (_health_label self) (shown food).

End Status.

(** *** Drops in bulk *)

(** The invariant of a grid that no tool in it has a negative durability. *)
Definition tools_intact (g : Grid) : Prop :=
  forall position stack t,
    getitem position g = Some stack -> stack_item stack = ATool t ->
    0 <= _durability t.

Section Bulk.
Context {World Block : Type} `{WorldOps World Block}.

(** The world after the items of [items] were dropped for the drops
    [i], [i + 1], ... of a block at [(x0, y0)]. *)
Fixpoint drop_items (x0 y0 : Z) (randint : nat -> Z * Z) (i : nat)
    (items : list Item) (world : World) : World :=
  match items with
  | [] => world
  | item :: rest =>
      let '(x, y) := item_position x0 y0 (randint i) i in
      drop_items x0 y0 randint (S i) rest (add_item (mkDroppedItem item) x y world)
  end.

End Bulk.

(** An entry that names the category "item" and an identifier that
    [create_item] turns into [item]. *)
Definition drops_item `{Tables} (drop : Drop) (item : Item) : Prop :=
  fst drop = PStr "item" /\ create_item (snd drop) = Return item.

(** Whether the four tool types and the three materials of the 3x3
    recipes are registered. *)
Definition crafting_tools_registered `{Tables} : bool :=
  forallb (fun kind => in_set (PStr kind) MATERIAL_TOOL_TYPES)
          ["pickaxe"; "axe"; "shovel"; "sword"] &&
  forallb (fun material => in_dict (PStr material) TOOL_DURABILITIES)
          ["wood"; "stone"; "diamond"].

(** The block classes whose [get_drops] is defined in [app.py]. *)
Definition drops_defined_here (cls : BlockClass) : bool :=
  match cls with
  | LeafBlock | ResourceBlock _ _ | TrickCandleFlameBlock _ => false
  | _ => true
  end.

(** *** The pointer: [check_target], the mouse callbacks and [_left_click] *)

(** What [check_target] asks of the item, the world, the player and
    [core.positions_in_range]. *)
Class RangeOps (Player World : Type) : Type := {
  get_attack_range : Item -> Q;
  get_cell_expanse : World -> Q;
  player_position : Player -> Q * Q;
  positions_in_range : Q * Q -> Z * Z -> Q -> bool
}.

Section Pointer.
Context {Player World Block : Type}.
Context `{ItemBase} `{GridOps} `{Tables}.
Context `{PlayerOps Player} `{BlockOps Block} `{ThingOps Block} `{WorldOps World Block}.
Context `{RangeOps Player World}.

(** A [Ninedraft] object together with its [_target_in_range] attribute. *)
Record Pointed : Type := mkPointed {
  app_of : Ninedraft (Player := Player) (World := World);
  _target_in_range : bool
}.

Definition set_target_position (position : Z * Z)
    (self : Ninedraft (Player := Player) (World := World)) : Ninedraft :=
  mkNinedraft (_world self) (_player self) (_hot_bar self) (_inventory self)
              (_hands self) (_crafting_window self) position.

(** [check_target] *)
Definition check_target (self : Pointed) : Pointed :=
  let '(active_item, effective_item) := get_holding (app_of self) in
  let pixel_range :=
    (get_attack_range active_item * get_cell_expanse (_world (app_of self)))%Q in
  mkPointed (app_of self)
            (positions_in_range (player_position (_player (app_of self)))
                                (_target_position (app_of self)) pixel_range).

(** [_mouse_move(event)] *)
Definition _mouse_move (event : Z * Z) (self : Pointed) : Pointed :=
  check_target (mkPointed (set_target_position event (app_of self)) (_target_in_range self)).

(** [_mouse_leave(event)] *)
Definition _mouse_leave (self : Pointed) : Pointed :=
  mkPointed (app_of self) false.

(** [_left_click(event)], with the samples [mine_block] draws.  When a
    block is mined its state after the call is returned as well.  The
    wool block that the [elif] branch builds and asks for its drops is
    dropped at once, which changes nothing. *)
Definition _left_click (luck : Q) (randint : nat -> Z * Z) (self : Pointed)
    : (result unit * Pointed) * option Block :=
  let '(x, y) := _target_position (app_of self) in
  if _target_in_range self then
    match get_block x y (_world (app_of self)) with
    | Some block =>
        let '((outcome, app), block) := mine_block luck randint block x y (app_of self) in
        ((outcome, mkPointed app (_target_in_range self)), Some block)
    | None => ((Return tt, self), None)
    end
  else ((Return tt, self), None).

End Pointer.

(** *** [load_simple_world] *)

(** The mobs [load_simple_world] creates, each with its identifier and
    size. *)
Inductive NewMob : Type :=
  | NewBird (mob_id : string) (size : Z * Z)
  | NewSheep (mob_id : string) (size : Z * Z)
  | NewBee (mob_id : string) (size : Z * Z).

(** The methods of [World] that [load_simple_world] calls. *)
Class WorldSetupOps (World Block : Type) : Type := {
  get_grid_size : World -> nat * nat;
  add_block_to_grid : Block -> nat -> nat -> World -> World;
  add_mob : NewMob -> Z -> Z -> World -> World
}.

(** [d[key] = value] on a dictionary kept in insertion order: a key that is
    present keeps its place and takes the new value, a new key goes last. *)
Fixpoint dict_set {V} (key : nat * nat) (value : V) (d : list ((nat * nat) * V))
    : list ((nat * nat) * V) :=
  match d with
  | [] => [(key, value)]
  | (k, v) :: rest =>
      if decide (k = key) then (k, value) :: rest
      else (k, v) :: dict_set key value rest
  end.

(** The test of the two nested loops: the cell is skipped when it returns
    [false]. *)
Definition is_ground (x y : nat) : bool :=
  if (x <? 22)%nat then negb (y <=? 8)%nat else negb (x + y <? 30)%nat.

(** The list [ground]: [x] runs over [range(width)], [y] over
    [range(height)] inside it. *)
Definition ground_cells (width height : nat) : list (nat * nat) :=
  flat_map (fun x =>
    flat_map (fun y => if is_ground x y then [(x, y)] else []) (seq 0 height))
    (seq 0 width).

Definition trunks : list (nat * nat) := [(3, 8); (3, 7); (3, 6); (3, 5)]%nat.

Definition leaves : list (nat * nat) :=
  [(4, 3); (3, 3); (2, 3); (4, 2); (3, 2); (2, 2); (4, 4); (3, 4); (2, 4)]%nat.

Section Loader.
Context {World Block : Type}.
Context {tables : Tables} {block_ops : BlockOps Block}.
Context {setup_ops : WorldSetupOps World Block}.

(** One of the three loops that fill [cells]: [cells[cell] =
    create_block(block_id)] for each pair. *)
Fixpoint fill_cells (entries : list ((nat * nat) * string))
    (cells : list ((nat * nat) * Block)) : result (list ((nat * nat) * Block)) :=
  match entries with
  | [] => Return cells
  | (cell, block_id) :: rest =>
      and_then (create_block [PStr block_id]) (fun block =>
      fill_cells rest (dict_set cell (new_block block) cells))
  end.

(** The dictionary [cells] at the end of the three loops.  [kinds] is the
    sample [random.choices(blocks, weights=weights, k=len(ground))]. *)
Definition build_cells (kinds : list string) (width height : nat)
    : result (list ((nat * nat) * Block)) :=
  let ground := ground_cells width height in
  and_then (fill_cells (combine ground kinds) []) (fun cells =>
  and_then (fill_cells (map (fun trunk => (trunk, "wood")) trunks) cells) (fun cells =>
  fill_cells (map (fun leaf => (leaf, "leaf")) leaves) cells)).

(** [load_simple_world(world)] *)
Definition load_simple_world (kinds : list string) : M World unit :=
  (world <- get ;;
   let '(width, height) := get_grid_size world in
   cells <- lift (build_cells kinds width height) ;;
   modify (fun world =>
     fold_left (fun world '((i, j), block) => add_block_to_grid block i j world)
               cells world) ;;;
   mayhem <- lift (create_block [PStr "mayhem"; PNum 0]) ;;
   modify (add_block_to_grid (new_block mayhem) 14 8) ;;;
   modify (add_mob (NewBird "friendly_bird" (12, 12)) 400 100) ;;;
   modify (add_mob (NewSheep "sheep" (60, 30)) 400 100) ;;;
   modify (add_mob (NewBee "bee" (5, 5)) 400 100))%py.

End Loader.

(** ** A concrete set of collaborators

    Simple implementations of the imported classes, on which the methods
    above can be run. *)

Module Fixture.

(** Modelled from the spec: [item.py] is not part of [app.py]; hands can
    always attack and are not worn by it, a block item places its block,
    the other items place nothing. *)
#[export] Instance item_base : ItemBase := {
  inherited_can_attack item := match item with HandItem _ => true | _ => false end;
  inherited_attack _ item := item;
  inherited_place item :=
    match item with
    | BlockItem item_id => Some [(PStr "block", [PStr item_id])]
    | _ => None
    end
}.

(** The first empty cell of row 0 among columns [0 .. n-1]. *)
Fixpoint first_free (g : gmap (nat * nat) Stack) (n : nat) : option (nat * nat) :=
  match n with
  | O => None
  | S k =>
      match first_free g k with
      | Some position => Some position
      | None => if g !! (O, k) is None then Some (O, k) else None
      end
  end.

(** Modelled from the spec: [Grid.add_item] is not part of [app.py]; a row
    of ten cells takes the item into its first empty cell and refuses it
    when every cell is taken. *)
#[export] Instance grid_ops : GridOps := {
  add_item_to_grid item g :=
    match first_free (cells g) 10 with
    | Some position => (true, setitem position (Some (mkStack item 1)) g)
    | None => (false, g)
    end
}.

(** Modelled from the spec: the tables of [block.py] and [item.py] are not
    part of [app.py]; break tables for dirt, wood and stone, five tool
    types and five materials. *)
#[export] Instance tables : Tables := {
  BREAK_TABLES :=
    {[ "dirt" := {[ "hand" := (1 # 1, false)%Q; "shovel" := (2 # 5, true)%Q ]};
       "wood" := {[ "hand" := (2 # 1, false)%Q; "axe" := (1 # 1, true)%Q ]};
       "stone" := {[ "pickaxe" := (3 # 2, true)%Q ]} ]};
  MATERIAL_TOOL_TYPES := {[ "axe"; "shovel"; "hoe"; "pickaxe"; "sword" ]};
  TOOL_DURABILITIES :=
    {[ "wood" := 60; "stone" := 132; "iron" := 251; "gold" := 33; "diamond" := 1562 ]}
}.

(** Modelled from the spec: [Player] is not part of [app.py]; a player has
    food and health, both kept between 0 and their maximum. *)
Record Player : Type := mkPlayer {
  food : Q;
  max_food : Q;
  health : Q;
  max_health : Q
}.

Definition clamp (top v : Q) : Q :=
  if Qle_bool v 0 then 0%Q else if Qle_bool top v then top else Qred v.

Definition amount (change : PyVal) : Q :=
  match change with PNum q => q | PStr _ => 0%Q end.

#[export] Instance player_ops : PlayerOps Player := {
  get_food := food;
  _max_food := max_food;
  change_food change p :=
    mkPlayer (clamp (max_food p) (food p + amount change)) (max_food p)
             (health p) (max_health p);
  change_health change p :=
    mkPlayer (food p) (max_food p)
             (clamp (max_health p) (health p + amount change)) (max_health p)
}.

(** Modelled from the spec: [Block] is not part of [app.py]; a block has a
    class, a position, a mined flag and the drops its inherited
    [get_drops] answers; one attack mines it. *)
Record Block : Type := mkBlock {
  block_class : BlockClass;
  block_position : Z * Z;
  block_mined : bool;
  block_drops : option (list Drop)
}.

#[export] Instance block_ops : BlockOps Block := {
  new_block cls := mkBlock cls (0, 0) false None;
  class_of := block_class;
  mine _ _ _ b :=
    ((true, true), mkBlock (block_class b) (block_position b) true (block_drops b));
  is_mined := block_mined;
  get_position := block_position;
  inherited_get_drops _ _ b := block_drops b
}.

#[export] Instance thing_ops : ThingOps Block := {
  inherited_use _ := None
}.

(** Modelled from the spec: [World] is not part of [app.py]; this world is
    the record of the calls that changed it, latest last, and has nothing
    at any position asked for. *)
Inductive WorldCall : Type :=
  | RemoveItem (thing : Thing Block)
  | AddItem (item : DroppedItem) (x y : Z)
  | AddBlock (block : Block) (x y : Z).

#[export] Instance world_ops : WorldOps (list WorldCall) Block := {
  remove_item thing w := (w ++ [RemoveItem thing])%list;
  add_item item x y w := (w ++ [AddItem item x y])%list;
  add_block block x y w := (w ++ [AddBlock block x y])%list;
  get_block _ _ _ := None;
  get_thing _ _ _ := None
}.

(** The starting hot bar of the game, with the stone pickaxe selected. *)
Definition starting_hot_bar : Grid :=
  mkGrid
    {[ (0, 0)%nat := mkStack (BlockItem "dirt") 20;
       (0, 1)%nat := mkStack (FoodItem "apple" 2) 20;
       (0, 2)%nat := mkStack (ATool (Tool.init "stone_pickaxe" "pickaxe" 132)) 1 ]}
    (Some (0, 2)%nat).

Definition empty_grid : Grid := mkGrid ∅ None.

(** A row whose ten cells are all taken. *)
Definition full_grid : Grid :=
  mkGrid (list_to_map (map (fun k => ((O, k), mkStack (BlockItem "dirt") 64))
                           (seq 0 10))) None.

Definition new_player : Player := mkPlayer 20 20 20 20.

Definition game (hot_bar inventory : Grid) (player : Player)
  : Ninedraft (Player := Player) (World := list WorldCall) :=
  mkNinedraft [] player hot_bar inventory (HandItem "hands") None (0, 0).

(** A sheep at full health, standing still, on step 0. *)
Definition fit_sheep : Mob := mkMob 0 20 20 40 (0%R, 0%R).

(** Modelled from the spec: [Mob.step] is not part of [app.py]; the base
    step counts the step. *)
#[export] Instance mob_base : MobBase := {
  super_step _ self :=
    mkMob (_steps self + 1) (_health self) (_max_health self) (_tempo self)
          (get_velocity self)
}.

(** A stone pickaxe alone in the selected cell of the hot bar. *)
Definition pickaxe_in_hand : Grid :=
  mkGrid {[ (0, 2)%nat := mkStack (ATool (Tool.init "stone_pickaxe" "pickaxe" 132)) 1 ]}
         (Some (0, 2)%nat).

(** A player who has eaten nothing for a while. *)
Definition hungry_player : Player := mkPlayer 10 20 20 20.

(** A block at the centre (112, 144) of cell (3, 4). *)
Definition block_at_3_4 (cls : BlockClass) (drops : option (list Drop)) : Block :=
  mkBlock cls (112, 144) false drops.

(** The same block once mined. *)
Definition mined_at_3_4 (cls : BlockClass) (drops : option (list Drop)) : Block :=
  mkBlock cls (112, 144) true drops.

(** A block class that answers every attack in the same way, for the
    cases the block above does not show: whether the item was suitable,
    whether the attack was successful, and whether it breaks the block. *)
Definition answering (suitable successful breaks : bool) : BlockOps Block := {|
  new_block cls := mkBlock cls (0, 0) false None;
  class_of := block_class;
  mine _ _ _ b :=
    ((suitable, successful),
     mkBlock (block_class b) (block_position b) (block_mined b || breaks)
             (block_drops b));
  is_mined := block_mined;
  get_position := block_position;
  inherited_get_drops _ _ b := block_drops b
|}.

(** Modelled from the spec: a world that has things at given positions,
    next to the record of the calls that changed it. *)
Record Stage : Type := mkStage {
  stage_calls : list WorldCall;
  stage_things : list ((Z * Z) * Thing Block)
}.

Definition thing_on (x y : Z) (stage : Stage) : option (Thing Block) :=
  snd <$> find (fun entry => bool_decide (fst entry = (x, y))) (stage_things stage).

Definition record_call (call : WorldCall) (stage : Stage) : Stage :=
  mkStage (stage_calls stage ++ [call])%list (stage_things stage).

#[export] Instance stage_ops : WorldOps Stage Block := {
  remove_item thing := record_call (RemoveItem thing);
  add_item item x y := record_call (AddItem item x y);
  add_block block x y := record_call (AddBlock block x y);
  get_block x y stage :=
    match thing_on x y stage with
    | Some (ThingBlock block) => Some block
    | _ => None
    end;
  get_thing := thing_on
}.

(** Modelled from the spec: the reach of an item is three cells of 32
    pixels, the player stands at (250, 150), and two positions are in
    range when their squared distance is at most the squared range. *)
#[export] Instance range_ops {World : Type} : RangeOps Player World := {
  get_attack_range _ := 3%Q;
  get_cell_expanse _ := 32%Q;
  player_position _ := (250%Q, 150%Q);
  positions_in_range here there pixel_range :=
    Qle_bool ((fst here - inject_Z (fst there)) * (fst here - inject_Z (fst there))
              + (snd here - inject_Z (snd there)) * (snd here - inject_Z (snd there)))
             (pixel_range * pixel_range)
}.

(** Modelled from the spec: a world of 32 by 16 cells that records the
    blocks and mobs put into it by the loader. *)
Inductive LoadCall : Type :=
  | PutBlock (block : Block) (column row : nat)
  | PutMob (mob : NewMob) (x y : Z).

#[export] Instance world_setup_ops : WorldSetupOps (list LoadCall) Block := {
  get_grid_size _ := (32, 16)%nat;
  add_block_to_grid block column row world := (world ++ [PutBlock block column row])%list;
  add_mob mob x y world := (world ++ [PutMob mob x y])%list
}.

(** Twenty apples, and twenty dirt blocks, in the selected cell. *)
Definition apples_in_hand : Grid :=
  mkGrid {[ (0, 1)%nat := mkStack (FoodItem "apple" 2) 20 ]} (Some (0, 1)%nat).

Definition dirt_in_hand : Grid :=
  mkGrid {[ (0, 0)%nat := mkStack (BlockItem "dirt") 20 ]} (Some (0, 0)%nat).

(** A game in a world that has a crafting table at (100, 150), pointed at. *)
Definition table_at_hand : Block :=
  mkBlock (CraftingTableBlock "crafting_table" ∅) (112, 144) false None.

Definition game_on_stage (hot_bar : Grid) (player : Player)
  : Ninedraft (Player := Player) (World := Stage) :=
  mkNinedraft (mkStage [] [((100, 150), ThingBlock table_at_hand)])
              player hot_bar empty_grid (HandItem "hands") None (100, 150).

(** A block that resists: the item is suitable, the attack does not
    succeed and the block stays. *)
Definition tough_block_ops : BlockOps Block := answering true false false.

(** A block that gives way to the wrong item: it breaks, but the item was
    not the suitable one. *)
Definition soft_block_ops : BlockOps Block := answering false true true.

End Fixture.

(** * Properties *)

(** ** Basic facts about the model *)

Lemma Qltb_lt (a b : Q) : Qltb a b = true <-> (a < b)%Q.
Proof.
  unfold Qltb. rewrite negb_true_iff, <- not_true_iff_false, Qle_bool_iff.
  split; [apply Qnot_le_lt | apply Qlt_not_le].
Qed.

Lemma Qltb_not_lt (a b : Q) : Qltb a b = false <-> ~ (a < b)%Q.
Proof. rewrite <- Qltb_lt. symmetry. apply not_true_iff_false. Qed.

Lemma is_str_eq (v : PyVal) (lit : string) : is_str v lit = true <-> v = PStr lit.
Proof.
  destruct v as [s | q]; simpl; [| split; discriminate].
  rewrite String.eqb_eq. split; congruence.
Qed.

Lemma is_str_neq (v : PyVal) (lit : string) : is_str v lit = false <-> v <> PStr lit.
Proof. rewrite <- is_str_eq. symmetry. apply not_true_iff_false. Qed.

(** ** Tools *)

Lemma attack_le (successful : bool) (t : ToolItem) :
  _durability (Tool.attack successful t) <= _durability t.
Proof. destruct successful; unfold Tool.attack; simpl; lia. Qed.

Lemma attack_able_nonneg (successful : bool) (t : ToolItem) :
  Tool.can_attack t = true -> 0 <= _durability (Tool.attack successful t).
Proof.
  unfold Tool.can_attack. intros Hable%Z.ltb_lt.
  destruct successful; unfold Tool.attack; simpl; lia.
Qed.

Lemma attacks_non_increasing (calls : list bool) :
  forall t, Tool.non_increasing calls t.
Proof.
  induction calls as [| successful rest IH]; intros t; simpl; [exact I |].
  split; [apply attack_le | apply IH].
Qed.

Lemma attacks_le (calls : list bool) :
  forall t, _durability (Tool.attacks calls t) <= _durability t.
Proof.
  induction calls as [| successful rest IH]; intros t; simpl; [lia |].
  etransitivity; [apply IH | apply attack_le].
Qed.

Lemma attacks_able_nonneg (calls : list bool) :
  forall t, 0 <= _durability t -> Tool.each_call_able calls t ->
            0 <= _durability (Tool.attacks calls t).
Proof.
  induction calls as [| successful rest IH]; intros t Hpos Hable; simpl; [exact Hpos |].
  destruct Hable as [Hnow Hlater].
  apply IH; [apply attack_able_nonneg, Hnow | exact Hlater].
Qed.

(** C2, as the code has it: [attack(True)] leaves durability unchanged and
    [attack(False)] lowers it by exactly 1, whatever the durability (there
    is no clamp at 0 in [attack]); so durability never increases along a
    sequence of calls, and it stays non-negative along every sequence in
    which each call is made while [can_attack()] holds, which is when
    [get_holding] makes the tool the effective item. *)
Theorem attack_durability (t : ToolItem) (calls : list bool) :
  Tool.attack true t = t /\
  _durability (Tool.attack false t) = _durability t - 1 /\
  Tool.non_increasing calls t /\
  _durability (Tool.attacks calls t) <= _durability t /\
  (0 <= _durability t -> Tool.each_call_able calls t ->
   0 <= _durability (Tool.attacks calls t)).
Proof.
  repeat split.
  - apply attacks_non_increasing.
  - apply attacks_le.
  - apply attacks_able_nonneg.
Qed.

(** C2 at a wooden axe used for three attacks, two of them unsuccessful. *)
Lemma attack_durability_witness :
  let axe := Tool.init "wood_axe" "axe" 60 in
  let calls := [false; true; false] in
  0 <= _durability axe /\ Tool.each_call_able calls axe /\
  0 <= _durability (Tool.attacks calls axe).
Proof.
  intros axe calls.
  assert (Hpos : 0 <= _durability axe) by (simpl; lia).
  assert (Hable : Tool.each_call_able calls axe) by (vm_compute; tauto).
  split; [exact Hpos | split; [exact Hable |]].
  exact (proj2 (proj2 (proj2 (proj2 (attack_durability axe calls)))) Hpos Hable).
Defined.

(** C2 as stated fails: a wooden axe worn down to 0 by sixty unsuccessful
    attacks does not stay at 0 on the next one; [attack] takes it to -1. *)
Lemma attack_not_clamped :
  let worn := Tool.attacks (repeat false 60) (Tool.init "wood_axe" "axe" 60) in
  _durability worn = 0 /\
  _durability (Tool.attack false worn) = -1 /\
  ~ 0 <= _durability (Tool.attack false worn).
Proof. vm_compute. repeat split; congruence. Qed.

(** ** The application class, for every implementation of its collaborators *)

Section AppFacts.
Context {Player World Block : Type}.
Context `{ItemBase} `{GridOps} `{Tables}.
Context `{PlayerOps Player} `{BlockOps Block} `{ThingOps Block} `{WorldOps World Block}.

Implicit Type self : Ninedraft (Player := Player) (World := World).

(** *** What one drop, and a list of drops, leave alone *)

Lemma dispatch_drop_frame x0 y0 jitter i drop xy self :
  let self' := snd (dispatch_drop x0 y0 jitter i drop xy self) in
  _player self' = _player self /\ _hot_bar self' = _hot_bar self /\
  _inventory self' = _inventory self /\ _hands self' = _hands self.
Proof.
  destruct drop as [drop_category drop_types], xy as [x y].
  unfold dispatch_drop, bind, lift, modify, ret, raise.
  destruct (is_str drop_category "item").
  - destruct (create_item drop_types); simpl; auto.
  - destruct (is_str drop_category "block"); [| simpl; auto].
    destruct (create_block drop_types); simpl; auto.
Qed.

Lemma dispatch_drops_frame x0 y0 randint drops :
  forall i xy self,
  let self' := snd (dispatch_drops x0 y0 randint i drops xy self) in
  _player self' = _player self /\ _hot_bar self' = _hot_bar self /\
  _inventory self' = _inventory self /\ _hands self' = _hands self.
Proof.
  induction drops as [| drop rest IH]; intros i xy self; simpl; [auto |].
  unfold bind.
  pose proof (dispatch_drop_frame x0 y0 (randint i) i drop xy self) as Hone.
  destruct (dispatch_drop x0 y0 (randint i) i drop xy self) as [[xy' | e] self1];
    simpl in Hone; [| exact Hone].
  specialize (IH (S i) xy' self1). simpl in IH.
  intuition congruence.
Qed.

Lemma update_effective_item_player f self :
  _player (update_effective_item f self) = _player self.
Proof.
  unfold update_effective_item.
  destruct (effective_item_owner self); reflexivity.
Qed.

(** *** The effect router *)

(** C1: for a "food" or a "health" effect alike, [run_effect] picks the
    stat from the player's state and not from the tag: while food is
    strictly below the maximum, food is changed by [strength]; otherwise
    health is.  In particular a "health" effect goes to food whenever food
    is below its maximum. *)
Theorem run_effect_ignores_tag (kind : string) (strength : PyVal) self :
  kind = "food" \/ kind = "health" ->
  ((get_food (_player self) < _max_food (_player self))%Q ->
   run_effect [PStr kind; strength] self
   = (Return tt, set_player (change_food strength) self)) /\
  (~ (get_food (_player self) < _max_food (_player self))%Q ->
   run_effect [PStr kind; strength] self
   = (Return tt, set_player (change_health strength) self)).
Proof.
  intros Hkind.
  assert (Hrun : run_effect [PStr kind; strength] self
                 = if Qltb (get_food (_player self)) (_max_food (_player self))
                   then (Return tt, set_player (change_food strength) self)
                   else (Return tt, set_player (change_health strength) self)).
  { destruct Hkind as [-> | ->]; unfold run_effect; simpl;
      unfold bind, get, modify;
      destruct (Qltb (get_food (_player self)) (_max_food (_player self)));
      reflexivity. }
  split; intros Hfood; rewrite Hrun.
  - apply Qltb_lt in Hfood. rewrite Hfood. reflexivity.
  - apply Qltb_not_lt in Hfood. rewrite Hfood. reflexivity.
Qed.

(** *** Mining *)

Lemma after_mined_player luck randint suitable block x y self :
  _player (snd (after_mined luck randint suitable block x y self))
  = if Qltb 0 (get_food (_player self))
    then change_food (PNum (-(1#2))) (_player self)
    else change_health (PNum (-(5#2))) (_player self).
Proof.
  unfold after_mined, bind at 1, get.
  set (cost := if Qltb 0 (get_food (_player self)) then _ else _).
  assert (Hcost : cost self
                   = (Return tt,
                      set_player (if Qltb 0 (get_food (_player self))
                                  then change_food (PNum (-(1#2)))
                                  else change_health (PNum (-(5#2)))) self)).
  { subst cost. destruct (Qltb 0 (get_food (_player self))); reflexivity. }
  unfold bind at 1. rewrite Hcost.
  unfold bind at 1, modify at 1.
  destruct (Qltb luck 1).
  - destruct (get_drops luck suitable block) as [[| drop rest] |].
    + simpl. destruct (Qltb 0 (get_food (_player self))); reflexivity.
    + destruct (get_position block) as [x0 y0].
      match goal with
      | |- _player (snd (dispatch_drops ?a ?b ?c ?d ?e ?f ?g)) = _ =>
          destruct (dispatch_drops_frame a b c e d f g) as [-> _]
      end.
      simpl. destruct (Qltb 0 (get_food (_player self))); reflexivity.
    + simpl. destruct (Qltb 0 (get_food (_player self))); reflexivity.
  - simpl. destruct (Qltb 0 (get_food (_player self))); reflexivity.
Qed.

(** C3: whenever [mine_block] leaves the block mined, exactly one of the two
    stat mutators of the player is applied, once: with food strictly above
    0 it is [change_food(-0.5)], and with food at 0 (or below) it is
    [change_health(-2.5)]; the player is touched in no other way, whatever
    the drops do afterwards. *)
Theorem mine_block_costs_food_then_health luck randint block x y self :
  let run := mine_block luck randint block x y self in
  is_mined (snd run) = true ->
  ((0 < get_food (_player self))%Q ->
   _player (snd (fst run)) = change_food (PNum (-(1#2))) (_player self)) /\
  (~ (0 < get_food (_player self))%Q ->
   _player (snd (fst run)) = change_health (PNum (-(5#2))) (_player self)).
Proof.
  unfold mine_block.
  destruct (get_holding self) as [active_item effective_item].
  destruct (mine effective_item active_item luck block)
    as [[was_item_suitable was_attack_successful] block'].
  destruct (is_mined block') eqn:Hmined; simpl; intros Hrun; [| congruence].
  rewrite after_mined_player, !update_effective_item_player.
  split; intros Hfood.
  - apply Qltb_lt in Hfood. rewrite Hfood. reflexivity.
  - apply Qltb_not_lt in Hfood. rewrite Hfood. reflexivity.
Qed.

(** *** The guard on [drops] *)

Ltac split_cases :=
  repeat match goal with
         | |- context [lookup ?k ?d] => destruct (lookup k d)
         | |- context [if ?b then _ else _] => destruct b
         | |- context [match ?x with _ => _ end] => destruct x
         end.

Lemma create_item_raises (item_id : list PyVal) (e : exn) :
  create_item item_id = Raise e -> e = KeyError_no_item item_id.
Proof.
  unfold create_item.
  match goal with |- context [match ?found with Some _ => _ | None => _ end] =>
    destruct found end; congruence.
Qed.

Lemma create_block_not_unbound (block_id : list PyVal) (name : string) :
  create_block block_id <> Raise (UnboundLocalError name).
Proof.
  unfold create_block, and_then, subscript. split_cases; discriminate.
Qed.

Lemma dispatch_drop_not_unbound x0 y0 jitter i drop xy self (name : string) :
  fst (dispatch_drop x0 y0 jitter i drop xy self) <> Raise (UnboundLocalError name).
Proof.
  destruct drop as [drop_category drop_types], xy as [x y].
  unfold dispatch_drop, bind, lift, modify, ret, raise.
  destruct (is_str drop_category "item").
  - destruct (create_item drop_types) eqn:Hitem; simpl; [discriminate |].
    apply create_item_raises in Hitem. subst. discriminate.
  - destruct (is_str drop_category "block"); [| simpl; discriminate].
    destruct (create_block drop_types) eqn:Hblock; simpl; [discriminate |].
    intros [= ->]. exact (create_block_not_unbound _ _ Hblock).
Qed.

Lemma dispatch_drops_not_unbound x0 y0 randint drops (name : string) :
  forall i xy self,
  fst (dispatch_drops x0 y0 randint i drops xy self) <> Raise (UnboundLocalError name).
Proof.
  induction drops as [| drop rest IH]; intros i xy self; simpl; [discriminate |].
  unfold bind.
  pose proof (dispatch_drop_not_unbound x0 y0 (randint i) i drop xy self name) as Hone.
  destruct (dispatch_drop x0 y0 (randint i) i drop xy self) as [[xy' | e] self1];
    simpl in Hone; [apply IH |].
  simpl. intros [= ->]. apply Hone. reflexivity.
Qed.

Lemma after_mined_not_unbound luck randint suitable block x y self (name : string) :
  Qltb luck 1 = true ->
  fst (after_mined luck randint suitable block x y self) <> Raise (UnboundLocalError name).
Proof.
  intros Hguard. unfold after_mined, bind at 1, get.
  set (cost := if Qltb 0 (get_food (_player self)) then _ else _).
  assert (Hcost : exists self1, cost self = (Return tt, self1)).
  { subst cost. destruct (Qltb 0 (get_food (_player self))); eexists; reflexivity. }
  destruct Hcost as [self1 Hcost].
  unfold bind at 1. rewrite Hcost.
  unfold bind at 1, modify at 1. rewrite Hguard.
  destruct (get_drops luck suitable block) as [[| drop rest] |]; try discriminate.
  destruct (get_position block) as [x0 y0].
  apply dispatch_drops_not_unbound.
Qed.

(** The model does have the failure the guard protects from: with a sample
    of 1 or more, which [random.random()] never gives, reading [drops]
    after a block was mined raises. *)
Lemma after_mined_unbound luck randint suitable block x y self :
  Qltb luck 1 = false ->
  fst (after_mined luck randint suitable block x y self)
  = Raise (UnboundLocalError "drops").
Proof.
  intros Hguard. unfold after_mined, bind at 1, get.
  set (cost := if Qltb 0 (get_food (_player self)) then _ else _).
  assert (Hcost : exists self1, cost self = (Return tt, self1)).
  { subst cost. destruct (Qltb 0 (get_food (_player self))); eexists; reflexivity. }
  destruct Hcost as [self1 Hcost].
  unfold bind at 1. rewrite Hcost.
  unfold bind at 1, modify at 1. rewrite Hguard. reflexivity.
Qed.

(** C10: [luck] is a sample of [random.random()], so it lies in [0, 1); the
    guard [luck < 1] therefore holds, [drops] is bound by the call to
    [get_drops] before it is read, and [mine_block] never raises
    [UnboundLocalError]. *)
Theorem drops_bound_before_read luck randint block x y self :
  (0 <= luck)%Q /\ (luck < 1)%Q ->
  Qltb luck 1 = true /\
  forall name,
    fst (fst (mine_block luck randint block x y self)) <> Raise (UnboundLocalError name).
Proof.
  intros [_ Hluck%Qltb_lt]. split; [exact Hluck |]. intros name.
  unfold mine_block.
  destruct (get_holding self) as [active_item effective_item].
  destruct (mine effective_item active_item luck block)
    as [[was_item_suitable was_attack_successful] block'].
  destruct (is_mined block'); simpl; [| discriminate].
  apply after_mined_not_unbound, Hluck.
Qed.

(** *** Drop dispatch *)

(** C8, as the code has it, for one drop entry [(drop_category, drop_types)]
    and every value of the category.  A category other than "item" and
    "block" raises the unknown-drop-category error with nothing changed,
    and the error ends the loop as its outcome.  An "item" entry whose
    payload [create_item] knows adds exactly one dropped-item body, and a
    "block" entry whose payload [create_block] knows adds exactly one
    block; a payload the factory does not know raises the factory's
    lookup error instead and adds nothing. *)
Theorem dispatch_drop_by_category x0 y0 jitter i drop_category drop_types x y self :
  let run := dispatch_drop x0 y0 jitter i (drop_category, drop_types) (x, y) self in
  (drop_category <> PStr "item" -> drop_category <> PStr "block" ->
   run = (Raise (KeyError_unknown_drop_category drop_category), self) /\
   forall randint rest,
     randint i = jitter ->
     dispatch_drops x0 y0 randint i ((drop_category, drop_types) :: rest) (x, y) self
     = (Raise (KeyError_unknown_drop_category drop_category), self)) /\
  (drop_category = PStr "item" ->
   match create_item drop_types with
   | Return item =>
       let '(x', y') := item_position x0 y0 jitter i in
       run = (Return (x', y'), set_world (add_item (mkDroppedItem item) x' y') self)
   | Raise e => run = (Raise e, self)
   end) /\
  (drop_category = PStr "block" ->
   match create_block drop_types with
   | Return block =>
       run = (Return (x, y), set_world (add_block (new_block block) x y) self)
   | Raise e => run = (Raise e, self)
   end).
Proof.
  intros run. subst run. unfold dispatch_drop.
  split; [intros Hitem%is_str_neq Hblock%is_str_neq | split; intros ->].
  - rewrite Hitem, Hblock. split; [reflexivity |].
    intros randint rest <-. simpl. unfold bind, dispatch_drop.
    rewrite Hitem, Hblock. reflexivity.
  - simpl. unfold bind, lift, modify, ret.
    destruct (create_item drop_types); reflexivity.
  - simpl. unfold bind, lift, modify, ret.
    destruct (create_block drop_types); reflexivity.
Qed.

(** *** Placing the active item *)

Lemma trigger_crafting_frame craft_type self :
  let self' := snd (_trigger_crafting craft_type self) in
  _hot_bar self' = _hot_bar self /\ _world self' = _world self.
Proof.
  unfold _trigger_crafting, bind, lift, modify.
  destruct CRAFTING_RECIPES_2x2; [| simpl; auto].
  destruct CRAFTING_RECIPES_3x3; simpl; auto.
Qed.

Lemma run_effect_frame effect self :
  let self' := snd (run_effect effect self) in
  _hot_bar self' = _hot_bar self /\ _world self' = _world self.
Proof.
  unfold run_effect.
  destruct effect as [| kind [| payload [| extra rest]]]; try (simpl; auto; fail).
  destruct (is_str kind "crafting"); [apply trigger_crafting_frame |].
  destruct (is_str kind "food" || is_str kind "health"); [| simpl; auto].
  unfold bind, get, modify.
  destruct (Qltb (get_food (_player self)) (_max_food (_player self))); simpl; auto.
Qed.

Lemma getitem_setitem position value (g : Grid) :
  getitem position (setitem position value g) = value.
Proof.
  unfold getitem, setitem. destruct value as [stack |]; simpl.
  - apply lookup_insert_eq.
  - apply lookup_delete_eq.
Qed.

(** C9: a right click with nothing at the target position and a stack in
    the selected hot bar cell takes exactly one unit from that stack, and
    empties the cell when the quantity reaches 0, whatever [place()]
    returned and whatever happens afterwards; when [place()] returned no
    drops (as a tool's does) the click returns there, nothing having been
    placed in the world. *)
Theorem right_click_consumes_one event position stack self :
  get_thing (fst (_target_position self)) (snd (_target_position self)) (_world self)
  = None ->
  get_selected (_hot_bar self) = Some position ->
  getitem position (_hot_bar self) = Some stack ->
  let run := _right_click event self in
  _hot_bar (snd run) = one_used position stack (_hot_bar self) /\
  getitem position (_hot_bar (snd run))
  = (if stack_quantity stack - 1 =? 0 then None
     else Some (mkStack (stack_item stack) (stack_quantity stack - 1))) /\
  (Items.place (stack_item stack) = None \/ Items.place (stack_item stack) = Some [] ->
   fst run = Return tt /\ _world (snd run) = _world self).
Proof.
  intros Hnothing Hselected Hstack run.
  assert (Hbar : _hot_bar (snd run) = one_used position stack (_hot_bar self)).
  { subst run. unfold _right_click.
    destruct (_target_position self) as [x y]. simpl in Hnothing.
    rewrite Hnothing, Hselected, Hstack.
    set (used := if stack_quantity (subtract 1 stack) =? 0 then _ else _).
    assert (Hused : _hot_bar used = one_used position stack (_hot_bar self)).
    { subst used. unfold one_used. simpl.
      destruct (stack_quantity stack - 1 =? 0); reflexivity. }
    destruct (Items.place (stack_item stack)) as [[| [drop_category drop_types] [| more rest]] |];
      try exact Hused.
    destruct event as [ex ey].
    destruct (is_str drop_category "block").
    - destruct (get_block ex ey (_world used)); [exact Hused |].
      destruct drop_types as [| block_id others]; [exact Hused |].
      unfold bind, lift, modify.
      destruct (create_block [block_id]); exact Hused.
    - destruct (is_str drop_category "effect"); [| exact Hused].
      rewrite <- Hused. apply run_effect_frame. }
  split; [exact Hbar | split].
  - rewrite Hbar. unfold one_used.
    destruct (stack_quantity stack - 1 =? 0); apply getitem_setitem.
  - intros Hplace. subst run. unfold _right_click.
    destruct (_target_position self) as [x y]. simpl in Hnothing.
    rewrite Hnothing, Hselected, Hstack.
    destruct Hplace as [-> | ->];
      (split; [reflexivity |]);
      destruct (stack_quantity (subtract 1 stack) =? 0); reflexivity.
Qed.

(** *** Picking up a dropped item *)

(** C5: the handler asks the hot bar first and the inventory only when
    the hot bar refused.  If either takes the item, the dropped item is
    removed from the world and the handler returns [False] (collision to be
    ignored).  It returns [True] (valid collision) exactly when both
    refused the item, and then the world is left as it was. *)
Theorem pickup_hot_bar_then_inventory dropped_item self :
  let item := get_item dropped_item in
  let hot_bar_took := fst (add_item_to_grid item (_hot_bar self)) in
  let inventory_took := fst (add_item_to_grid item (_inventory self)) in
  let run := _handle_player_collide_item dropped_item self in
  (fst run = true <-> hot_bar_took = false /\ inventory_took = false) /\
  (hot_bar_took = true \/ inventory_took = true ->
   fst run = false /\
   _world (snd run) = remove_item (ThingDroppedItem dropped_item) (_world self)) /\
  (fst run = true -> _world (snd run) = _world self) /\
  _hot_bar (snd run) = snd (add_item_to_grid item (_hot_bar self)) /\
  (hot_bar_took = true -> _inventory (snd run) = _inventory self) /\
  (hot_bar_took = false ->
   _inventory (snd run) = snd (add_item_to_grid item (_inventory self))).
Proof.
  intros item hot_bar_took inventory_took run.
  subst run hot_bar_took inventory_took. unfold _handle_player_collide_item.
  fold item.
  destruct (add_item_to_grid item (_hot_bar self)) as [[|] hot_bar]; simpl;
    destruct (add_item_to_grid item (_inventory self)) as [[|] inventory];
    simpl; intuition congruence.
Qed.

(** *** The held tool and the coordinates of a block drop *)

Lemma after_mined_hot_bar luck randint suitable block x y self :
  _hot_bar (snd (after_mined luck randint suitable block x y self)) = _hot_bar self.
Proof.
  unfold after_mined, bind at 1, get.
  set (cost := if Qltb 0 (get_food (_player self)) then _ else _).
  assert (Hcost : exists self1, cost self = (Return tt, self1) /\ _hot_bar self1 = _hot_bar self).
  { subst cost. destruct (Qltb 0 (get_food (_player self))); eexists; split; reflexivity. }
  destruct Hcost as (self1 & Hcost & <-).
  unfold bind at 1. rewrite Hcost.
  unfold bind at 1, modify at 1.
  destruct (Qltb luck 1); [| reflexivity].
  destruct (get_drops luck suitable block) as [[| drop rest] |]; try reflexivity.
  destruct (get_position block) as [x0 y0].
  match goal with
  | |- _hot_bar (snd (dispatch_drops ?a ?b ?c ?d ?e ?f ?g)) = _ =>
      destruct (dispatch_drops_frame a b c e d f g) as (_ & -> & _)
  end.
  reflexivity.
Qed.

(** [mine_block] attacks with the tool of the selected stack only while
    the tool [can_attack]; a depleted tool is left as it is, the hands
    being the effective item. *)
Lemma mine_block_attacks_only_if_able luck randint block x y self position t quantity :
  selected (_hot_bar self) = Some position ->
  getitem position (_hot_bar self) = Some (mkStack (ATool t) quantity) ->
  let successful :=
    snd (fst (mine (snd (get_holding self)) (fst (get_holding self)) luck block)) in
  getitem position (_hot_bar (snd (fst (mine_block luck randint block x y self))))
  = Some (mkStack (ATool (if Tool.can_attack t then Tool.attack successful t else t))
                  quantity).
Proof.
  intros Hselected Hstack successful. subst successful. unfold mine_block.
  assert (Howner : effective_item_owner self
                   = if Tool.can_attack t then Some position else None).
  { unfold effective_item_owner. rewrite Hselected, Hstack. reflexivity. }
  destruct (get_holding self) as [active_item effective_item]. simpl.
  destruct (mine effective_item active_item luck block)
    as [[was_item_suitable was_attack_successful] block'].
  assert (Hbar : getitem position
                   (_hot_bar (update_effective_item
                                (Items.attack was_attack_successful) self))
                 = Some (mkStack (ATool (if Tool.can_attack t
                                         then Tool.attack was_attack_successful t
                                         else t)) quantity)).
  { unfold update_effective_item. rewrite Howner.
    destruct (Tool.can_attack t); simpl; [| exact Hstack].
    rewrite Hstack. unfold getitem. simpl. apply lookup_insert_eq. }
  destruct (is_mined block'); simpl; [| exact Hbar].
  rewrite after_mined_hot_bar. exact Hbar.
Qed.

(** A block entry that comes first in the drop list is added at the
    coordinates [mine_block] was called with. *)
Lemma block_drop_first_uses_call_position x0 y0 randint drop_types rest x y self block :
  create_block drop_types = Return block ->
  exists self',
    dispatch_drop x0 y0 (randint O) 0 (PStr "block", drop_types) (x, y) self
    = (Return (x, y), self') /\
    _world self' = add_block (new_block block) x y (_world self) /\
    dispatch_drops x0 y0 randint 0 ((PStr "block", drop_types) :: rest) (x, y) self
    = dispatch_drops x0 y0 randint 1 rest (x, y) self'.
Proof.
  intros Hblock. eexists. split; [| split].
  - unfold dispatch_drop. simpl. unfold bind, lift, modify, ret.
    rewrite Hblock. reflexivity.
  - reflexivity.
  - simpl. unfold bind at 1. unfold dispatch_drop. simpl.
    unfold bind, lift, modify, ret. rewrite Hblock. reflexivity.
Qed.

(** An item entry followed by a block entry: the block is added at the
    position the loop has just computed for the item. *)
Lemma block_drop_after_item_uses_item_position
    x0 y0 randint i item_types block_types rest xy self item block :
  create_item item_types = Return item ->
  create_block block_types = Return block ->
  let '(x', y') := item_position x0 y0 (randint i) i in
  dispatch_drops x0 y0 randint i
    ((PStr "item", item_types) :: (PStr "block", block_types) :: rest) xy self
  = dispatch_drops x0 y0 randint (S (S i)) rest (x', y')
      (set_world (add_block (new_block block) x' y')
         (set_world (add_item (mkDroppedItem item) x' y') self)).
Proof.
  intros Hitem Hblock. destruct xy as [x y].
  unfold item_position. simpl.
  unfold bind, dispatch_drop, lift, modify, ret. simpl.
  rewrite Hitem. simpl. rewrite Hblock. reflexivity.
Qed.

End AppFacts.

(** ** Mobs *)

Section MobFacts.
Context {base : MobBase}.

Lemma py_div_nonzero (a b : R) : b <> 0%R -> py_div a b = Return (a / b)%R.
Proof. intros Hb. unfold py_div. destruct (Req_dec_T b 0%R); [contradiction | reflexivity]. Qed.


End MobFacts.



(** ** The factories *)

Section FactoryFacts.
Context `{Tables}.

Ltac chain_cases :=
  repeat match goal with
         | |- context [if ?b then _ else _] =>
             let E := fresh "E" in destruct b eqn:E
         end.

Lemma create_simple_no_tool (item_type : string) (item : Item) :
  create_simple item_type = Some item ->
  match item with ATool _ | BowArrowItem _ _ _ => False | _ => True end.
Proof.
  unfold create_simple. chain_cases; intros Hitem; inversion Hitem; exact I.
Qed.

Lemma in_set_elem (key : PyVal) (s : gset string) :
  in_set key s = true -> exists k, key = PStr k /\ k ∈ s.
Proof.
  destruct key as [k | q]; simpl; [| discriminate].
  intros Hin%bool_decide_eq_true. eauto.
Qed.

Lemma in_dict_some {V} (key : PyVal) (d : gmap string V) :
  in_dict key d = true -> exists k, key = PStr k /\ is_Some (d !! k).
Proof.
  destruct key as [k | q]; simpl; [| discriminate].
  intros Hin%bool_decide_eq_true. eauto.
Qed.

Lemma create_item_pair (kind material : PyVal) :
  create_item [kind; material]
  = if in_set kind MATERIAL_TOOL_TYPES && in_dict material TOOL_DURABILITIES
    then match create_tool kind material with
         | Some item => Return item
         | None => Raise (KeyError_no_item [kind; material])
         end
    else Raise (KeyError_no_item [kind; material]).
Proof.
  unfold create_item.
  destruct kind; destruct (in_set _ _ && in_dict _ _); reflexivity.
Qed.

Lemma create_item_other (item_id : list PyVal) :
  length item_id <> 1%nat -> length item_id <> 2%nat ->
  create_item item_id = Raise (KeyError_no_item item_id).
Proof.
  intros Hone Htwo.
  destruct item_id as [| a [| b [| c rest]]]; simpl in *; try congruence;
    try reflexivity.
  unfold create_item. destruct a; reflexivity.
Qed.

(** X1: Every tool [create_item] returns is new and usable: its durability is
    its maximal durability and is positive, so [can_attack()] holds.  It
    comes from a pair (kind, material) of a registered tool type and a
    registered material, has that kind as tool type and is named
    material_kind. *)
Theorem created_tools_are_fresh (item_id : list PyVal) (t : ToolItem) :
  create_item item_id = Return (ATool t) ->
  _durability t = _max_durability t /\ 0 < _durability t /\
  Tool.can_attack t = true /\
  exists kind material,
    item_id = [PStr kind; PStr material] /\
    kind ∈ MATERIAL_TOOL_TYPES /\ is_Some (TOOL_DURABILITIES !! material) /\
    _tool_type t = kind /\ tool_id t = (material ++ "_" ++ kind)%string.
Proof.
  destruct item_id as [| kind [| material [| more rest]]].
  - discriminate.
  - unfold create_item. destruct kind as [item_type | q]; [| discriminate].
    destruct (create_simple item_type) as [item |] eqn:Hsimple; [| discriminate].
    intros [= ->]. apply create_simple_no_tool in Hsimple. contradiction.
  - rewrite create_item_pair.
    destruct (in_set kind MATERIAL_TOOL_TYPES && in_dict material TOOL_DURABILITIES)
      eqn:Hregistered; [| discriminate].
    apply andb_true_iff in Hregistered as [Hkind Hmaterial].
    apply in_set_elem in Hkind as (k & -> & Hk).
    apply in_dict_some in Hmaterial as (m & -> & Hm).
    destruct (create_tool (PStr k) (PStr m)) as [item |] eqn:Htool; [| discriminate].
    intros [= ->]. revert Htool. unfold create_tool.
    chain_cases; intros Hitem; inversion Hitem; subst;
      match goal with
      | E : (_ && _)%bool = true |- _ =>
          apply andb_true_iff in E as [?%is_str_eq ?%is_str_eq]
      end;
      simplify_eq; repeat split; try reflexivity; eauto 10.
  - rewrite create_item_other by (simpl; lia). discriminate.
Qed.

Lemma create_item_fails (item_id : list PyVal) (e : exn) :
  create_item item_id = Raise e -> e = KeyError_no_item item_id.
Proof.
  unfold create_item.
  match goal with |- context [match ?found with Some _ => _ | None => _ end] =>
    destruct found end; congruence.
Qed.

(** X2: How [create_item] fails: always with the [KeyError] that names the
    identifier it was given; on every identifier that has neither one nor
    two parts; and on every pair whose kind is not a registered tool type
    or whose material is not a registered material, also when the pair is
    one of those the chain of cases names. *)
Theorem create_item_failures (item_id : list PyVal) :
  (forall e, create_item item_id = Raise e -> e = KeyError_no_item item_id) /\
  (length item_id <> 1%nat -> length item_id <> 2%nat ->
   create_item item_id = Raise (KeyError_no_item item_id)) /\
  (forall kind material,
     item_id = [kind; material] ->
     in_set kind MATERIAL_TOOL_TYPES = false \/
     in_dict material TOOL_DURABILITIES = false ->
     create_item item_id = Raise (KeyError_no_item item_id)).
Proof.
  split; [apply create_item_fails | split; [apply create_item_other |]].
  intros kind material -> Hunregistered. rewrite create_item_pair.
  destruct Hunregistered as [-> | ->]; [| rewrite andb_false_r]; reflexivity.
Qed.

(** *** [create_block] *)

(** X3: An identifier that is a key of [BREAK_TABLES] always gives a plain
    [ResourceBlock] with its own break table, also when it is one of the
    names ("crafting_table", "diamond", "wool", ...) that have a class of
    their own; only "leaf" comes before the table. *)
Theorem break_table_entry_wins (block_id : string) (break_table : BreakTable) :
  BREAK_TABLES !! block_id = Some break_table ->
  (block_id <> "leaf" ->
   create_block [PStr block_id] = Return (ResourceBlock block_id break_table)) /\
  (block_id = "leaf" -> create_block [PStr block_id] = Return LeafBlock).
Proof.
  intros Hentry. unfold create_block. split.
  - intros Hleaf%String.eqb_neq. rewrite Hleaf.
    unfold in_dict. rewrite bool_decide_eq_true_2 by (rewrite Hentry; eauto).
    unfold subscript. rewrite Hentry. reflexivity.
  - intros ->. reflexivity.
Qed.

(** X4: The blocks with a class of their own borrow the break table of wood
    or of stone.  For an identifier that is not itself a key of
    [BREAK_TABLES], the block is built when the borrowed key is there, and
    the lookup error of that key (not the "no block defined" error) is
    raised when it is missing. *)
Theorem special_block_needs_base_table (block_id : string) :
  BREAK_TABLES !! block_id = None ->
  let borrowed base make :=
    create_block [PStr block_id]
    = match BREAK_TABLES !! base with
      | Some break_table => Return (make break_table)
      | None => Raise (KeyError_key base)
      end in
  (block_id = "crafting_table" -> borrowed "wood" (CraftingTableBlock block_id)) /\
  (block_id = "diamond" -> borrowed "stone" (DiamondBlock block_id)) /\
  (block_id = "wool" -> borrowed "wood" (WoolBlock block_id)) /\
  (block_id = "bed" -> borrowed "wood" (BedBlock block_id)) /\
  (block_id = "honey" -> borrowed "wood" (HoneyBlock block_id)) /\
  (block_id = "furnace" -> borrowed "stone" (Furnace block_id)) /\
  (block_id = "hive" -> borrowed "wood" (HiveBlock block_id)).
Proof.
  intros Habsent borrowed. subst borrowed.
  repeat split; intros ->; unfold create_block, in_dict;
    rewrite bool_decide_eq_false_2 by (rewrite Habsent; intros [? [=]]);
    simpl; unfold subscript;
    match goal with |- context [BREAK_TABLES !! ?k] => destruct (BREAK_TABLES !! k) end;
    reflexivity.
Qed.

(** X5: The shapes of identifier [create_block] refuses or reads loosely: the
    empty tuple fails with [IndexError] (it is indexed before any test);
    a longer tuple is a candle flame block whenever it starts with
    "mayhem", its second part being the stage and any further part being
    ignored, and is refused otherwise; a lone number is refused. *)
Theorem create_block_tuple_shapes (first second : PyVal) (rest : list PyVal) (q : Q) :
  create_block [] = Raise IndexError /\
  (first = PStr "mayhem" ->
   create_block (first :: second :: rest) = Return (TrickCandleFlameBlock second)) /\
  (first <> PStr "mayhem" ->
   create_block (first :: second :: rest)
   = Raise (KeyError_no_block (first :: second :: rest))) /\
  create_block [PNum q] = Raise (KeyError_no_block [PNum q]).
Proof.
  split; [reflexivity | split; [| split; [| reflexivity]]].
  - intros ->. reflexivity.
  - intros Hfirst%is_str_neq. unfold create_block. rewrite Hfirst.
    destruct first; reflexivity.
Qed.

End FactoryFacts.

(** ** More on mining and drops *)

Section MiningFacts.
Context {Player World Block : Type}.
Context {item_base : ItemBase} {grid_ops : GridOps} {tables : Tables}.
Context {player_ops : PlayerOps Player} {block_ops : BlockOps Block}.
Context {thing_ops : ThingOps Block} {world_ops : WorldOps World Block}.

Implicit Type self : Ninedraft (Player := Player) (World := World).

(** X6: The blocks with a class of their own in [app.py] drop themselves:
    with the correct item used, a crafting table, diamond, wool, bed,
    honey or furnace block built by [create_block] gives a non-empty list
    of "item" entries for its own identifier, which [create_item] turns
    into the matching block item; with another item it gives nothing.  A
    hive gives five "bee" entries, none of which [create_item] knows. *)
Theorem own_drops_are_known_items (luck : Q) (block : Block) (block_id : string)
    (cls : BlockClass) :
  BREAK_TABLES !! block_id = None ->
  create_block [PStr block_id] = Return cls ->
  class_of block = cls ->
  (block_id ∈ ["crafting_table"; "diamond"; "wool"; "bed"; "honey"; "furnace"] ->
   get_drops luck false block = None /\
   create_item [PStr block_id] = Return (BlockItem block_id) /\
   exists n, (0 < n)%nat /\ get_drops luck true block = Some (item_drops block_id n)) /\
  (block_id = "hive" ->
   get_drops luck false block = None /\
   get_drops luck true block = Some (item_drops "bee" 5) /\
   create_item [PStr "bee"] = Raise (KeyError_no_item [PStr "bee"])).
Proof.
  intros Habsent Hcreate Hclass.
  assert (Hnot_key : in_dict (PStr block_id) BREAK_TABLES = false).
  { unfold in_dict. apply bool_decide_eq_false_2. rewrite Habsent. intros [? [=]]. }
  split.
  - intros Hid. unfold get_drops. rewrite Hclass. clear Hclass.
    repeat (apply elem_of_cons in Hid as [-> | Hid]); [.. | inversion Hid];
      revert Hcreate; unfold create_block; rewrite Hnot_key; simpl;
      unfold and_then, subscript;
      match goal with |- context [BREAK_TABLES !! ?k] => destruct (BREAK_TABLES !! k) end;
      intros [= <-]; (split; [reflexivity | split; [reflexivity |]]).
    + exists 1%nat. split; [lia | reflexivity].
    + exists 1%nat. split; [lia | reflexivity].
    + exists 1%nat. split; [lia | reflexivity].
    + exists 1%nat. split; [lia | reflexivity].
    + exists 5%nat. split; [lia | reflexivity].
    + exists 1%nat. split; [lia | reflexivity].
  - intros ->. unfold get_drops. rewrite Hclass. clear Hclass.
    revert Hcreate. unfold create_block. rewrite Hnot_key. simpl.
    unfold and_then, subscript.
    destruct (BREAK_TABLES !! "wood"); intros [= <-].
    repeat split; reflexivity.
Qed.

(** *** A mining attempt that does not break the block *)

Lemma update_effective_item_frame f self :
  let self' := update_effective_item f self in
  _world self' = _world self /\ _player self' = _player self /\
  _inventory self' = _inventory self /\
  _crafting_window self' = _crafting_window self /\
  _target_position self' = _target_position self.
Proof.
  unfold update_effective_item.
  destruct (effective_item_owner self); simpl; auto.
Qed.

(** X7: When the attack leaves the block unmined, [mine_block] returns
    normally having changed nothing but the block and the item attacked
    with: the world, the player, the inventory and the crafting window are
    as before, and no food is spent. *)
Theorem unfinished_attack_spends_nothing luck randint block x y self :
  let run := mine_block luck randint block x y self in
  is_mined (snd run) = false ->
  fst (fst run) = Return tt /\
  _world (snd (fst run)) = _world self /\
  _player (snd (fst run)) = _player self /\
  _inventory (snd (fst run)) = _inventory self /\
  _crafting_window (snd (fst run)) = _crafting_window self.
Proof.
  unfold mine_block.
  destruct (get_holding self) as [active_item effective_item].
  destruct (mine effective_item active_item luck block)
    as [[was_item_suitable was_attack_successful] block'].
  destruct (is_mined block') eqn:Hmined; simpl; intros Hrun; [congruence |].
  pose proof (update_effective_item_frame
                (Items.attack was_attack_successful) self) as Hframe.
  simpl in Hframe. intuition.
Qed.

(** *** The tools of the hot bar *)

Lemma update_effective_item_tool f self position t quantity :
  getitem position (_hot_bar self) = Some (mkStack (ATool t) quantity) ->
  getitem position (_hot_bar (update_effective_item f self))
  = Some (mkStack (ATool t) quantity) \/
  (Tool.can_attack t = true /\
   getitem position (_hot_bar (update_effective_item f self))
   = Some (mkStack (f (ATool t)) quantity)).
Proof.
  intros Hstack. unfold update_effective_item, effective_item_owner.
  destruct (selected (_hot_bar self)) as [owner |]; [| left; exact Hstack].
  destruct (getitem owner (_hot_bar self)) as [held |] eqn:Hheld; [| left; exact Hstack].
  destruct (Items.can_attack (stack_item held)) eqn:Hable; [| left; exact Hstack].
  simpl. rewrite Hheld.
  destruct (decide (owner = position)) as [-> | Hother].
  - right. rewrite Hstack in Hheld. injection Hheld as <-. simpl in Hable.
    split; [exact Hable |]. unfold getitem. simpl. apply lookup_insert_eq.
  - left. unfold getitem. simpl. rewrite lookup_insert_ne by exact Hother. exact Hstack.
Qed.

(** X8: Whatever cell of the hot bar a tool is in, [mine_block] leaves that
    tool in its cell, having taken at most one point of durability from
    it, and never takes a tool of non-negative durability below 0; the
    quantity of the stack and the maximal durability stay. *)
Theorem mine_block_wears_tools_by_one luck randint block x y self position t quantity :
  getitem position (_hot_bar self) = Some (mkStack (ATool t) quantity) ->
  exists t',
    getitem position (_hot_bar (snd (fst (mine_block luck randint block x y self))))
    = Some (mkStack (ATool t') quantity) /\
    _durability t - 1 <= _durability t' <= _durability t /\
    (0 <= _durability t -> 0 <= _durability t') /\
    _max_durability t' = _max_durability t /\ _tool_type t' = _tool_type t.
Proof.
  intros Hstack. unfold mine_block.
  destruct (get_holding self) as [active_item effective_item].
  destruct (mine effective_item active_item luck block)
    as [[was_item_suitable was_attack_successful] block'].
  assert (Hbar : _hot_bar (snd (fst
                   (if is_mined block'
                    then (after_mined luck randint was_item_suitable block' x y
                            (update_effective_item (Items.attack was_attack_successful) self),
                          block')
                    else ((Return tt,
                           update_effective_item (Items.attack was_attack_successful) self),
                          block'))))
                 = _hot_bar (update_effective_item
                               (Items.attack was_attack_successful) self)).
  { destruct (is_mined block'); simpl; [apply after_mined_hot_bar | reflexivity]. }
  rewrite Hbar.
  destruct (update_effective_item_tool (Items.attack was_attack_successful)
              self position t quantity Hstack) as [Hsame | [Hable Hworn]].
  - exists t. split; [exact Hsame |]. repeat split; lia.
  - exists (Tool.attack was_attack_successful t). split; [exact Hworn |].
    apply Z.ltb_lt in Hable.
    destruct was_attack_successful; unfold Tool.attack; simpl; repeat split; lia.
Qed.

(** *** Drops in bulk *)

Lemma set_world_twice (f g : World -> World) self :
  set_world g (set_world f self) = set_world (fun world => g (f world)) self.
Proof. reflexivity. Qed.

Lemma dispatch_item_drop x0 y0 jitter i drop_types xy self item :
  create_item drop_types = Return item ->
  dispatch_drop x0 y0 jitter i (PStr "item", drop_types) xy self
  = (Return (item_position x0 y0 jitter i),
     set_world (add_item (mkDroppedItem item)
                         (fst (item_position x0 y0 jitter i))
                         (snd (item_position x0 y0 jitter i))) self).
Proof.
  intros Hitem. destruct xy as [x y]. unfold dispatch_drop. simpl.
  unfold bind, lift, modify, ret. rewrite Hitem. reflexivity.
Qed.

Lemma dispatch_item_drops x0 y0 randint drops items :
  Forall2 drops_item drops items ->
  forall i xy self rest,
    dispatch_drops x0 y0 randint i (drops ++ rest) xy self
    = dispatch_drops x0 y0 randint (i + length drops) rest
        (match drops with
         | [] => xy
         | _ => item_position x0 y0 (randint (i + length drops - 1)%nat)
                              (i + length drops - 1)
         end)
        (set_world (drop_items x0 y0 randint i items) self).
Proof.
  induction 1 as [| [category drop_types] item drops items [Hcategory Hitem] Hrest IH];
    intros i xy self rest.
  - simpl. rewrite Nat.add_0_r. destruct self; reflexivity.
  - simpl in Hcategory, Hitem. subst category.
    cbn [app dispatch_drops length].
    unfold bind at 1. rewrite (dispatch_item_drop _ _ _ _ _ _ _ _ Hitem).
    rewrite IH. rewrite set_world_twice.
    replace (S i + length drops)%nat with (i + S (length drops))%nat by lia.
    f_equal.
    destruct drops as [| next more]; [| reflexivity].
    simpl. replace (i + 1 - 1)%nat with i by lia. reflexivity.
Qed.

(** X9: A list of "item" entries for identifiers [create_item] knows is
    dispatched without error, and adds to the world exactly the items
    made from them, one for each entry and in the order of the list, entry
    [i] at the position the tiling gives index [i]. *)
Theorem item_drops_all_land x0 y0 randint drops items i xy self :
  Forall2 drops_item drops items ->
  dispatch_drops x0 y0 randint i drops xy self
  = (Return tt, set_world (drop_items x0 y0 randint i items) self).
Proof.
  intros Hdrops.
  pose proof (dispatch_item_drops x0 y0 randint drops items Hdrops i xy self [])
    as Hrun.
  rewrite app_nil_r in Hrun. exact Hrun.
Qed.

(** X10: A failing entry ends the loop without undoing anything: the items of
    the entries before it stay in the world, the error is the outcome,
    and the entries after it are never looked at. *)
Theorem drops_before_a_failure_stay x0 y0 randint drops items i xy self bad rest e :
  Forall2 drops_item drops items ->
  (forall xy' self',
     dispatch_drop x0 y0 (randint (i + length drops)%nat) (i + length drops) bad xy' self'
     = (Raise e, self')) ->
  dispatch_drops x0 y0 randint i (drops ++ bad :: rest) xy self
  = (Raise e, set_world (drop_items x0 y0 randint i items) self).
Proof.
  intros Hdrops Hbad.
  rewrite (dispatch_item_drops x0 y0 randint drops items Hdrops).
  simpl. unfold bind. rewrite Hbad. reflexivity.
Qed.

End MiningFacts.

(** *** Where dropped items land *)

(** X11: With both jitter samples in the range 0..2 of [random.randint(0, 2)],
    the item of every drop, whatever its index, lands between 11 pixels
    before and 13 pixels after the position of the mined block on each
    axis, hence within half a block of it. *)
Theorem dropped_items_stay_by_the_block (x0 y0 : Z) (jitter : Z * Z) (i : nat) :
  0 <= fst jitter <= 2 -> 0 <= snd jitter <= 2 ->
  let '(x, y) := item_position x0 y0 jitter i in
  (x0 - 11 <= x <= x0 + 13 /\ y0 - 11 <= y <= y0 + 13) /\
  (x0 - BLOCK_SIZE / 2 <= x < x0 + BLOCK_SIZE / 2 /\
   y0 - BLOCK_SIZE / 2 <= y < y0 + BLOCK_SIZE / 2).
Proof.
  intros Hx Hy. unfold item_position.
  change (BLOCK_SIZE / 2) with 16.
  pose proof (Z.mod_pos_bound (Z.of_nat i) 3 ltac:(lia)).
  pose proof (Z.mod_pos_bound (Z.of_nat i / 3) 3 ltac:(lia)).
  lia.
Qed.

(** X12: The tiling has nine places: drops [i] and [i + 9] get the same place
    (up to their jitter), and two drops among nine consecutive ones get
    different places even with the most unfavourable jitter. *)
Theorem drop_tiling_has_nine_places (x0 y0 : Z) (jitter jitter' : Z * Z) (i k : nat) :
  item_position x0 y0 jitter (i + 9) = item_position x0 y0 jitter i /\
  (0 <= fst jitter <= 2 -> 0 <= snd jitter <= 2 ->
   0 <= fst jitter' <= 2 -> 0 <= snd jitter' <= 2 ->
   (0 < k < 9)%nat ->
   item_position x0 y0 jitter i <> item_position x0 y0 jitter' (i + k)).
Proof.
  split.
  - unfold item_position. rewrite Nat2Z.inj_add.
    set (a := Z.of_nat i). change (Z.of_nat 9) with 9.
    pose proof (Z.div_mod a 3 ltac:(lia)).
    pose proof (Z.mod_pos_bound a 3 ltac:(lia)).
    pose proof (Z.div_mod (a + 9) 3 ltac:(lia)).
    pose proof (Z.mod_pos_bound (a + 9) 3 ltac:(lia)).
    pose proof (Z.div_mod (a / 3) 3 ltac:(lia)).
    pose proof (Z.mod_pos_bound (a / 3) 3 ltac:(lia)).
    pose proof (Z.div_mod ((a + 9) / 3) 3 ltac:(lia)).
    pose proof (Z.mod_pos_bound ((a + 9) / 3) 3 ltac:(lia)).
    f_equal; lia.
  - intros Hx Hy Hx' Hy' Hk. unfold item_position. intros [= Hsame_x Hsame_y].
    rewrite Nat2Z.inj_add in Hsame_x, Hsame_y.
    set (a := Z.of_nat i) in *. set (b := Z.of_nat k) in *.
    assert (Ha : 0 <= a) by (subst a; lia).
    assert (Hb : 0 < b < 9) by (subst b; lia).
    pose proof (Z.div_mod a 3 ltac:(lia)).
    pose proof (Z.mod_pos_bound a 3 ltac:(lia)).
    pose proof (Z.div_mod (a + b) 3 ltac:(lia)).
    pose proof (Z.mod_pos_bound (a + b) 3 ltac:(lia)).
    pose proof (Z.div_mod (a / 3) 3 ltac:(lia)).
    pose proof (Z.mod_pos_bound (a / 3) 3 ltac:(lia)).
    pose proof (Z.div_mod ((a + b) / 3) 3 ltac:(lia)).
    pose proof (Z.mod_pos_bound ((a + b) / 3) 3 ltac:(lia)).
    lia.
Qed.

(** ** Effects and clicks *)

Section ClickFacts.
Context {Player World Block : Type}.
Context {item_base : ItemBase} {grid_ops : GridOps} {tables : Tables}.
Context {player_ops : PlayerOps Player} {block_ops : BlockOps Block}.
Context {thing_ops : ThingOps Block} {world_ops : WorldOps World Block}.

Implicit Type self : Ninedraft (Player := Player) (World := World).

(** X13: A block of one of the classes of [app.py], mined with an item that is
    not the suitable one, is removed from the world and leaves nothing
    behind: no drop is dispatched and [mine_block] returns normally. *)
Theorem unsuitable_item_wins_nothing luck randint block x y self :
  let answer := mine (snd (get_holding self)) (fst (get_holding self)) luck block in
  let run := mine_block luck randint block x y self in
  is_mined (snd answer) = true ->
  (luck < 1)%Q ->
  fst (fst answer) = false ->
  drops_defined_here (class_of (snd answer)) = true ->
  fst (fst run) = Return tt /\
  _world (snd (fst run)) = remove_item (ThingBlock (snd answer)) (_world self).
Proof.
  unfold mine_block.
  destruct (get_holding self) as [active_item effective_item]. simpl.
  destruct (mine effective_item active_item luck block)
    as [[was_item_suitable was_attack_successful] block']. simpl.
  intros Hmined Hluck%Qltb_lt -> Hclass. rewrite Hmined. simpl.
  pose proof (update_effective_item_frame
                (Items.attack was_attack_successful) self) as [Hworld _].
  set (self1 := update_effective_item (Items.attack was_attack_successful) self) in *.
  assert (Hdrops : get_drops luck false block' = None).
  { unfold get_drops. destruct (class_of block'); try discriminate; reflexivity. }
  assert (Hrun : exists self2,
             after_mined luck randint false block' x y self1
             = (Return tt, set_world (remove_item (ThingBlock block')) self2) /\
             _world self2 = _world self1).
  { unfold after_mined, bind at 1, get.
    set (cost := if Qltb 0 (get_food (_player self1)) then _ else _).
    assert (Hcost : exists self2,
               cost self1 = (Return tt, self2) /\ _world self2 = _world self1).
    { subst cost. destruct (Qltb 0 (get_food (_player self1))); eexists; split; reflexivity. }
    destruct Hcost as (self2 & Hcost & Hworld2).
    exists self2. split; [| exact Hworld2].
    unfold bind at 1. rewrite Hcost.
    unfold bind at 1, modify at 1. rewrite Hluck, Hdrops. reflexivity. }
  destruct Hrun as (self2 & -> & Hworld2). simpl.
  split; [reflexivity |]. rewrite Hworld2. subst self1. rewrite Hworld. reflexivity.
Qed.

(** *** The effect router *)

Lemma table_raises {A} (entries : list (result A)) (e : exn) :
  table entries = Raise e -> exists entry, In entry entries /\ entry = Raise e.
Proof.
  induction entries as [| entry rest IH]; simpl; [discriminate |].
  destruct entry as [a | e']; simpl.
  - destruct (table rest) as [l | e'']; simpl; [discriminate |].
    intros [= ->]. destruct (IH eq_refl) as (entry & Hin & ->). eauto.
  - intros [= ->]. eauto.
Qed.

Lemma recipe_raises pattern item_id quantity (e : exn) :
  recipe pattern item_id quantity = Raise e -> e = KeyError_no_item item_id.
Proof.
  unfold recipe, and_then.
  destruct (create_item item_id) eqn:Hitem; [discriminate |].
  intros [= <-]. apply create_item_fails in Hitem. exact Hitem.
Qed.

Lemma trigger_crafting_raises craft_type self (e : exn) :
  fst (_trigger_crafting craft_type self) = Raise e ->
  exists item_id, e = KeyError_no_item item_id.
Proof.
  unfold _trigger_crafting, bind, lift, modify.
  destruct CRAFTING_RECIPES_2x2 as [l2 | e2] eqn:Hsmall.
  - destruct CRAFTING_RECIPES_3x3 as [l3 | e3] eqn:Hlarge; simpl; [discriminate |].
    intros [= ->]. unfold CRAFTING_RECIPES_3x3 in Hlarge.
    apply table_raises in Hlarge as (entry & Hin & ->).
    simpl in Hin.
    repeat (destruct Hin as [Hentry | Hin];
            [apply recipe_raises in Hentry; eauto |]).
    contradiction.
  - simpl. intros [= ->]. unfold CRAFTING_RECIPES_2x2 in Hsmall.
    apply table_raises in Hsmall as (entry & Hin & ->).
    simpl in Hin.
    repeat (destruct Hin as [Hentry | Hin];
            [apply recipe_raises in Hentry; eauto |]).
    contradiction.
Qed.

(** X14: The "no effect defined" error is raised for exactly the effects that
    are not a pair or whose kind is none of "crafting", "food" and
    "health"; it names the effect, and nothing has changed when it is
    raised. *)
Theorem no_effect_defined (effect : list PyVal) self :
  let refused :=
    match effect with
    | [kind; payload] =>
        kind <> PStr "crafting" /\ kind <> PStr "food" /\ kind <> PStr "health"
    | _ => True
    end in
  (refused -> run_effect effect self = (Raise (KeyError_no_effect effect), self)) /\
  (forall other, fst (run_effect effect self) = Raise (KeyError_no_effect other) -> refused).
Proof.
  intros refused. subst refused. unfold run_effect.
  destruct effect as [| kind [| payload [| more rest]]];
    try (split; [reflexivity | intros; exact I]).
  split.
  - intros (Hcrafting%is_str_neq & Hfood%is_str_neq & Hhealth%is_str_neq).
    rewrite Hcrafting, Hfood, Hhealth. reflexivity.
  - intros other.
    destruct (is_str kind "crafting") eqn:Hcrafting.
    { intros Hraise. apply trigger_crafting_raises in Hraise as [item_id [=]]. }
    destruct (is_str kind "food" || is_str kind "health") eqn:Hstat.
    { unfold bind, get, modify.
      destruct (Qltb (get_food (_player self)) (_max_food (_player self)));
        simpl; discriminate. }
    apply orb_false_iff in Hstat as [Hfood Hhealth].
    intros _. apply is_str_neq in Hcrafting, Hfood, Hhealth. auto.
Qed.

(** *** Crafting surfaces *)

Lemma small_recipes_build :
  exists recipes, CRAFTING_RECIPES_2x2 = Return recipes /\ length recipes = 5%nat.
Proof. eexists. split; [vm_compute; reflexivity | reflexivity]. Qed.

Lemma large_recipes_build :
  (crafting_tools_registered = true ->
   exists recipes, CRAFTING_RECIPES_3x3 = Return recipes /\ length recipes = 12%nat) /\
  (crafting_tools_registered = false ->
   exists item_id, CRAFTING_RECIPES_3x3 = Raise (KeyError_no_item item_id)).
Proof.
  unfold CRAFTING_RECIPES_3x3, recipe, crafting_tools_registered.
  rewrite !create_item_pair. cbn [forallb in_set in_dict].
  destruct (bool_decide ("pickaxe" ∈ MATERIAL_TOOL_TYPES));
  destruct (bool_decide ("axe" ∈ MATERIAL_TOOL_TYPES));
  destruct (bool_decide ("shovel" ∈ MATERIAL_TOOL_TYPES));
  destruct (bool_decide ("sword" ∈ MATERIAL_TOOL_TYPES));
  destruct (bool_decide (is_Some (TOOL_DURABILITIES !! "wood")));
  destruct (bool_decide (is_Some (TOOL_DURABILITIES !! "stone")));
  destruct (bool_decide (is_Some (TOOL_DURABILITIES !! "diamond")));
    (split; intros Hregistered; [| try discriminate Hregistered];
     try discriminate Hregistered;
     eexists; first [split; [vm_compute; reflexivity | reflexivity]
                    | vm_compute; reflexivity]).
Qed.

(** X15: Both recipe tables are built whenever a crafting surface is opened,
    so opening any of them, the basic 2x2 one included, needs the four
    tool types and three materials of the 3x3 recipes to be registered:
    without them the lookup error of [create_item] is raised and no window
    is opened.  With them the window is titled with the surface asked
    for and holds the 2x2 crafter with its 5 recipes for "basic", and the
    3x3 crafter with its 12 recipes for every other surface. *)
Theorem crafting_needs_the_tool_tables (craft_type : PyVal) self :
  let run := _trigger_crafting craft_type self in
  (crafting_tools_registered = true ->
   fst run = Return tt /\
   exists crafter,
     _crafting_window (snd run) = Some (mkCraftingWindow craft_type crafter) /\
     (craft_type = PStr "basic" ->
      crafter_rows crafter = 2%nat /\ crafter_columns crafter = 2%nat /\
      length (crafter_recipes crafter) = 5%nat) /\
     (craft_type <> PStr "basic" ->
      crafter_rows crafter = 3%nat /\ crafter_columns crafter = 3%nat /\
      length (crafter_recipes crafter) = 12%nat)) /\
  (crafting_tools_registered = false ->
   exists item_id, run = (Raise (KeyError_no_item item_id), self)).
Proof.
  intros run. subst run. unfold _trigger_crafting, bind, lift, modify.
  destruct small_recipes_build as (small & -> & Hsmall).
  destruct large_recipes_build as [Hyes Hno].
  split; intros Hregistered.
  - destruct (Hyes Hregistered) as (large & -> & Hlarge). simpl.
    split; [reflexivity |]. eexists. split; [reflexivity |].
    split.
    + intros ->. simpl. auto.
    + intros Hother%is_str_neq. rewrite Hother. simpl. auto.
  - destruct (Hno Hregistered) as (item_id & ->). simpl. eauto.
Qed.

(** *** Right clicks *)

Lemma run_effect_inventory effect self :
  _inventory (snd (run_effect effect self)) = _inventory self.
Proof.
  unfold run_effect.
  destruct effect as [| kind [| payload [| extra rest]]]; try reflexivity.
  destruct (is_str kind "crafting").
  - unfold _trigger_crafting, bind, lift, modify.
    destruct CRAFTING_RECIPES_2x2; [| reflexivity].
    destruct CRAFTING_RECIPES_3x3; reflexivity.
  - destruct (is_str kind "food" || is_str kind "health"); [| reflexivity].
    unfold bind, get, modify.
    destruct (Qltb (get_food (_player self)) (_max_food (_player self))); reflexivity.
Qed.

(** X16: A right click on a thing takes nothing from the hot bar and puts
    nothing in the world: the hot bar, the inventory and the world are as
    before.  If the thing answers [use()] with no effect the click changes
    nothing at all, and a crafting table opens the crafting surface named
    "crafting_table". *)
Theorem using_a_thing_takes_nothing event target self :
  get_thing (fst (_target_position self)) (snd (_target_position self)) (_world self)
  = Some target ->
  let run := _right_click event self in
  (_hot_bar (snd run) = _hot_bar self /\ _world (snd run) = _world self /\
   _inventory (snd run) = _inventory self) /\
  (use target = None -> run = (Return tt, self)) /\
  (forall block block_id break_table,
     target = ThingBlock block ->
     class_of block = CraftingTableBlock block_id break_table ->
     run = _trigger_crafting (PStr "crafting_table") self).
Proof.
  intros Htarget run. subst run. unfold _right_click.
  destruct (_target_position self) as [x y]. simpl in Htarget. rewrite Htarget.
  split; [| split].
  - destruct (use target) as [[| kind more] |]; auto.
    pose proof (run_effect_frame (kind :: more) self) as [Hbar Hworld].
    pose proof (run_effect_inventory (kind :: more) self) as Hinventory.
    auto.
  - intros ->. reflexivity.
  - intros block block_id break_table -> Hclass. simpl. rewrite Hclass. reflexivity.
Qed.

(** X17: Eating: a right click with a food item selected and nothing under the
    pointer uses up one unit of it and feeds the player its strength, on
    the food while the food is below its maximum and on the health
    otherwise; the world is left alone. *)
Theorem eating_feeds_or_heals event position item_id strength quantity self :
  get_thing (fst (_target_position self)) (snd (_target_position self)) (_world self)
  = None ->
  get_selected (_hot_bar self) = Some position ->
  getitem position (_hot_bar self) = Some (mkStack (FoodItem item_id strength) quantity) ->
  let run := _right_click event self in
  fst run = Return tt /\
  _hot_bar (snd run)
  = one_used position (mkStack (FoodItem item_id strength) quantity) (_hot_bar self) /\
  _world (snd run) = _world self /\
  ((get_food (_player self) < _max_food (_player self))%Q ->
   _player (snd run) = change_food (PNum strength) (_player self)) /\
  (~ (get_food (_player self) < _max_food (_player self))%Q ->
   _player (snd run) = change_health (PNum strength) (_player self)).
Proof.
  intros Hnothing Hselected Hstack run. subst run. unfold _right_click.
  destruct (_target_position self) as [x y]. simpl in Hnothing.
  rewrite Hnothing, Hselected, Hstack. simpl.
  set (used := if quantity - 1 =? 0 then _ else _).
  assert (Hused : _hot_bar used
                  = one_used position (mkStack (FoodItem item_id strength) quantity)
                             (_hot_bar self)
                  /\ _world used = _world self /\ _player used = _player self).
  { subst used. unfold one_used. simpl. destruct (quantity - 1 =? 0); auto. }
  destruct Hused as (Hbar & Hworld & Hplayer).
  destruct event as [ex ey]. unfold run_effect. simpl.
  unfold bind, get, modify. rewrite Hplayer.
  destruct (Qltb (get_food (_player self)) (_max_food (_player self))) eqn:Hfood;
    simpl; rewrite Hplayer;
    (split; [reflexivity | split; [exact Hbar | split; [exact Hworld |]]]).
  - split; [reflexivity |]. intros Hnot. apply Qltb_lt in Hfood. contradiction.
  - split; [| reflexivity]. intros Hlt%Qltb_lt. congruence.
Qed.

(** X18: A placement that cannot be done is refused with an error after the
    unit was taken from the stack, and puts nothing in the world: this
    happens when [place()] returns more than one drop, when the drop is a
    block and the clicked cell already has one, and when the category of
    the drop is neither "block" nor "effect". *)
Theorem refused_placement_adds_nothing event position stack drops self :
  get_thing (fst (_target_position self)) (snd (_target_position self)) (_world self)
  = None ->
  get_selected (_hot_bar self) = Some position ->
  getitem position (_hot_bar self) = Some stack ->
  Items.place (stack_item stack) = Some drops ->
  let run := _right_click event self in
  let refused e :=
    run = (Raise e, set_hot_bar (fun _ => one_used position stack (_hot_bar self)) self) in
  ((2 <= length drops)%nat ->
   refused (NotImplementedError "Cannot handle dropping more than 1 thing")) /\
  (forall drop_types,
     drops = [(PStr "block", drop_types)] ->
     is_Some (get_block (fst event) (snd event) (_world self)) ->
     refused (NotImplementedError
       "Automatically placing a block nearby if the target cell is full is not yet implemented")) /\
  (forall drop_category drop_types,
     drops = [(drop_category, drop_types)] ->
     drop_category <> PStr "block" -> drop_category <> PStr "effect" ->
     refused (KeyError_unknown_drop_category drop_category)).
Proof.
  intros Hnothing Hselected Hstack Hplace run refused. subst run refused.
  unfold _right_click.
  destruct (_target_position self) as [x y]. simpl in Hnothing.
  rewrite Hnothing, Hselected, Hstack, Hplace.
  set (used := if stack_quantity (subtract 1 stack) =? 0 then _ else _).
  assert (Hused : used = set_hot_bar (fun _ => one_used position stack (_hot_bar self)) self).
  { subst used. unfold one_used. simpl. destruct (stack_quantity stack - 1 =? 0); reflexivity. }
  rewrite Hused. clear used Hused.
  split; [| split].
  - intros Hmany. destruct drops as [| [c t] [| second more]]; simpl in Hmany; try lia.
    reflexivity.
  - intros drop_types -> [existing Hexisting]. destruct event as [ex ey].
    simpl in Hexisting. simpl. rewrite Hexisting. reflexivity.
  - intros drop_category drop_types -> Hblock%is_str_neq Heffect%is_str_neq.
    destruct event as [ex ey]. rewrite Hblock, Heffect. reflexivity.
Qed.

(** X19: Placing a block: when [place()] returns one "block" drop and the
    clicked cell is free, the block that [create_block] builds from the
    first part of the payload is added to the world at the position of the
    click (the event), which need not be the target position the world was
    asked about. *)
Theorem placed_block_goes_where_clicked event position stack block_id more block self :
  get_thing (fst (_target_position self)) (snd (_target_position self)) (_world self)
  = None ->
  get_selected (_hot_bar self) = Some position ->
  getitem position (_hot_bar self) = Some stack ->
  Items.place (stack_item stack) = Some [(PStr "block", block_id :: more)] ->
  get_block (fst event) (snd event) (_world self) = None ->
  create_block [block_id] = Return block ->
  let run := _right_click event self in
  fst run = Return tt /\
  _world (snd run) = add_block (new_block block) (fst event) (snd event) (_world self) /\
  _hot_bar (snd run) = one_used position stack (_hot_bar self) /\
  _player (snd run) = _player self.
Proof.
  intros Hnothing Hselected Hstack Hplace Hfree Hblock run. subst run.
  unfold _right_click.
  destruct (_target_position self) as [x y]. simpl in Hnothing.
  rewrite Hnothing, Hselected, Hstack, Hplace.
  set (used := if stack_quantity (subtract 1 stack) =? 0 then _ else _).
  assert (Hused : used = set_hot_bar (fun _ => one_used position stack (_hot_bar self)) self).
  { subst used. unfold one_used. simpl. destruct (stack_quantity stack - 1 =? 0); reflexivity. }
  rewrite Hused. clear used Hused.
  destruct event as [ex ey]. simpl in Hfree.
  change (is_str (PStr "block") "block") with true. cbv beta iota zeta.
  replace (get_block ex ey
             (_world (set_hot_bar (fun _ => one_used position stack (_hot_bar self)) self)))
    with (@None Block) by (symmetry; exact Hfree).
  unfold bind, lift, modify. rewrite Hblock. simpl. auto.
Qed.

End ClickFacts.

(** ** More on mobs *)

Section MobStepFacts.
Context {base : MobBase}.

(** X20: Between its beats a mob is left to the step of the base class: the
    override adds no impulse and does not divide, so even a mob whose
    maximal health is 0 steps normally; on a beat the division by a
    maximal health of 0 raises [ZeroDivisionError] before the base step
    is reached. *)
Theorem impulse_only_on_the_beat (time_delta theta : R) (self : Mob) :
  (_steps self mod 100 <> 0 ->
   Sheep.propel theta self = Return self /\
   Sheep.step time_delta theta self = Return (super_step time_delta self)) /\
  (_steps self mod 20 <> 0 ->
   Bee.propel theta self = Return self /\
   Bee.step time_delta theta self = Return (super_step time_delta self)) /\
  (_max_health self = 0%R ->
   (_steps self mod 100 = 0 -> Sheep.step time_delta theta self = Raise ZeroDivisionError) /\
   (_steps self mod 20 = 0 -> Bee.step time_delta theta self = Raise ZeroDivisionError)).
Proof.
  unfold Sheep.step, Sheep.propel, Bee.step, Bee.propel.
  split; [| split].
  - intros Hoff%Z.eqb_neq. rewrite Hoff. split; reflexivity.
  - intros Hoff%Z.eqb_neq. rewrite Hoff. split; reflexivity.
  - intros Hmax. unfold py_div. rewrite Hmax.
    destruct (Req_dec_T 0 0) as [_ | Hne]; [| contradiction].
    split; intros Hbeat%Z.eqb_eq; rewrite Hbeat; reflexivity.
Qed.

Lemma health_share_bounds (health max_health : R) :
  (0 <= health <= max_health)%R -> (0 < max_health)%R ->
  (0 <= health / max_health <= 1)%R.
Proof.
  intros [Hlow Hhigh] Hmax. split.
  - apply Rmult_le_pos; [exact Hlow |]. left. apply Rinv_0_lt_compat, Hmax.
  - apply (Rmult_le_reg_r max_health); [exact Hmax |].
    unfold Rdiv. rewrite Rmult_assoc, Rinv_l by lra. lra.
Qed.


End MobStepFacts.

(** ** The status view *)

Lemma py_round_near (x : Q) :
  (inject_Z (py_round x) - x <= 1 # 2)%Q /\ (x - inject_Z (py_round x) <= 1 # 2)%Q.
Proof.
  unfold py_round.
  pose proof (Qfloor_le x) as Hlow. pose proof (Qlt_floor x) as Hhigh.
  rewrite inject_Z_plus in Hhigh. change (inject_Z 1) with 1%Q in Hhigh.
  destruct (Qltb (x - inject_Z (Qfloor x)) (1 # 2)) eqn:Hunder.
  { apply Qltb_lt in Hunder. split; Lqa.lra. }
  apply Qltb_not_lt in Hunder.
  destruct (Qltb (1 # 2) (x - inject_Z (Qfloor x))) eqn:Hover.
  { rewrite inject_Z_plus. change (inject_Z 1) with 1%Q. split; Lqa.lra. }
  apply Qltb_not_lt in Hover.
  destruct (Z.even (Qfloor x));
    [| rewrite inject_Z_plus; change (inject_Z 1) with 1%Q]; split; Lqa.lra.
Qed.

Lemma py_round_whole (k : Z) (x : Q) : (x == inject_Z k)%Q -> py_round x = k.
Proof.
  intros Hx. unfold py_round.
  assert (Hfloor : Qfloor x = k) by (rewrite Hx; apply Qfloor_Z).
  rewrite Hfloor.
  assert (Hunder : Qltb (x - inject_Z k) (1 # 2) = true) by (apply Qltb_lt; Lqa.lra).
  rewrite Hunder. reflexivity.
Qed.

(** X22: The number a status label shows is the value rounded to a half: it is
    a whole number of halves, it lies within a quarter of the value, and a
    value that is itself a whole number of halves, as every food or health
    reached by steps of 0.5, 2 and 2.5 is, is shown as it is. *)
Theorem labels_show_the_nearest_half (value : Q) (self : StatusView) :
  let health_shown := _health_label (Status.set_health value self) in
  let food_shown := _food_label (Status.set_food value self) in
  health_shown = food_shown /\
  (health_shown * 2 == inject_Z (py_round (value * 2)))%Q /\
  (Qabs (health_shown - value) <= 1 # 4)%Q /\
  (forall k : Z, (value == inject_Z k / 2)%Q -> (health_shown == value)%Q) /\
  _food_label (Status.set_health value self) = _food_label self /\
  _health_label (Status.set_food value self) = _health_label self.
Proof.
  intros health_shown food_shown. subst health_shown food_shown.
  unfold Status.set_health, Status.set_food.
  cbn [_health_label _food_label]. unfold Status.shown.
  destruct (py_round_near (value * 2)) as [Hup Hdown].
  set (n := inject_Z (py_round (value * 2))) in *.
  assert (Heq : (n / 2 == n * (1 # 2))%Q) by field.
  split; [reflexivity |]. split; [field |]. split; [| split; [| split; reflexivity]].
  - apply Qabs_Qle_condition. rewrite Heq. split; Lqa.lra.
  - intros k Hhalf. subst n.
    rewrite (py_round_whole k) by (rewrite Hhalf; field).
    rewrite Hhalf. reflexivity.
Qed.

(** ** The pointer *)

Section PointerFacts.
Context {Player World Block : Type}.
Context `{ItemBase} `{GridOps} `{Tables}.
Context `{PlayerOps Player} `{BlockOps Block} `{ThingOps Block} `{WorldOps World Block}.
Context `{RangeOps Player World}.

(** X23: Once the pointer has left the view, a left click does nothing until
    the pointer moves again; and a left click in range on a cell without a
    block does nothing either.  A move of the pointer changes nothing but
    the target position and whether it is in range. *)
Theorem left_click_needs_a_block_in_range luck randint event (self : Pointed) :
  _left_click luck randint (_mouse_leave self) = ((Return tt, _mouse_leave self), None) /\
  (get_block (fst (_target_position (app_of self))) (snd (_target_position (app_of self)))
             (_world (app_of self)) = None ->
   _left_click luck randint self = ((Return tt, self), None)) /\
  _target_position (app_of (_mouse_move event self)) = event /\
  app_of (_mouse_move event self) = set_target_position event (app_of self).
Proof.
  split; [| split; [| split]].
  - unfold _left_click, _mouse_leave. simpl.
    destruct (_target_position (app_of self)); reflexivity.
  - intros Hfree. unfold _left_click.
    destruct (_target_position (app_of self)) as [x y]. simpl in Hfree.
    rewrite Hfree. destruct (_target_in_range self); reflexivity.
  - unfold _mouse_move, check_target. cbn [app_of].
    match goal with |- context [get_holding ?s] => destruct (get_holding s) end.
    reflexivity.
  - unfold _mouse_move, check_target. cbn [app_of].
    match goal with |- context [get_holding ?s] => destruct (get_holding s) end.
    reflexivity.
Qed.

End PointerFacts.

(** ** Loading the world *)

Lemma flat_map_bind {A B} (f : A -> list B) (l : list A) : flat_map f l = l ≫= f.
Proof. induction l as [| a l IH]; csimpl; [reflexivity | rewrite IH; reflexivity]. Qed.

Lemma elem_of_ground_row (x height : nat) (cell : nat * nat) :
  cell ∈ flat_map (fun y => if is_ground x y then [(x, y)] else []) (seq 0 height)
  <-> fst cell = x /\ (snd cell < height)%nat /\ is_ground x (snd cell) = true.
Proof.
  rewrite flat_map_bind, list_elem_of_bind. split.
  - intros (y & Hcell & Hy%elem_of_seq).
    destruct (is_ground x y) eqn:Hground; [| inversion Hcell].
    apply list_elem_of_singleton in Hcell as ->. simpl. split; [reflexivity |].
    split; [lia | exact Hground].
  - destruct cell as [x' y]. simpl. intros (-> & Hy & Hground).
    exists y. rewrite Hground. split; [apply list_elem_of_singleton; reflexivity |].
    apply elem_of_seq. lia.
Qed.

Lemma elem_of_ground_cells (width height : nat) (cell : nat * nat) :
  cell ∈ ground_cells width height
  <-> (fst cell < width)%nat /\ (snd cell < height)%nat /\
      is_ground (fst cell) (snd cell) = true.
Proof.
  unfold ground_cells. rewrite flat_map_bind, list_elem_of_bind. split.
  - intros (x & (<- & Hy & Hground)%elem_of_ground_row & Hx%elem_of_seq).
    split; [lia | split; assumption].
  - intros (Hx & Hy & Hground). exists (fst cell).
    split; [apply elem_of_ground_row; auto | apply elem_of_seq; lia].
Qed.

Lemma NoDup_ground_cells (width height : nat) : NoDup (ground_cells width height).
Proof.
  unfold ground_cells. rewrite flat_map_bind. apply NoDup_bind.
  - intros x1 x2 cell _ _ (<- & _)%elem_of_ground_row (<- & _)%elem_of_ground_row.
    reflexivity.
  - intros x _. rewrite flat_map_bind. apply NoDup_bind.
    + intros y1 y2 cell _ _ H1 H2.
      destruct (is_ground x y1); [| inversion H1].
      destruct (is_ground x y2); [| inversion H2].
      apply list_elem_of_singleton in H1, H2. congruence.
    + intros y _. destruct (is_ground x y); [apply NoDup_singleton | apply NoDup_nil_2].
    + apply NoDup_seq.
  - apply NoDup_seq.
Qed.

Lemma dict_set_fresh {V} (key : nat * nat) (value : V) (d : list ((nat * nat) * V)) :
  key ∉ d.*1 -> dict_set key value d = (d ++ [(key, value)])%list.
Proof.
  induction d as [| [k v] d IH]; simpl; [reflexivity |].
  intros Hfresh. apply not_elem_of_cons in Hfresh as [Hne Hfresh].
  destruct (decide (k = key)) as [-> | _]; [contradiction |].
  rewrite IH by exact Hfresh. reflexivity.
Qed.

Lemma fst_combine_same {A B} (l : list A) (k : list B) :
  length k = length l -> (combine l k).*1 = l.
Proof.
  revert k. induction l as [| a l IH]; intros [| b k] Hlength; simpl in *;
    try reflexivity; try discriminate.
  rewrite IH by lia. reflexivity.
Qed.

Section LoaderFacts.
Context {World Block : Type}.
Context {tables : Tables} {block_ops : BlockOps Block}.
Context {setup_ops : WorldSetupOps World Block}.

Lemma fill_cells_keys (entries : list ((nat * nat) * string)) :
  forall cells cells',
    fill_cells entries cells = Return cells' ->
    NoDup entries.*1 ->
    (forall key, key ∈ entries.*1 -> key ∉ cells.*1) ->
    cells'.*1 = (cells.*1 ++ entries.*1)%list.
Proof.
  induction entries as [| [cell block_id] rest IH]; intros cells cells';
    cbn [fill_cells fmap list_fmap fst].
  - intros [= <-] _ _. rewrite app_nil_r. reflexivity.
  - unfold and_then.
    destruct (create_block [PStr block_id]) as [block | e]; [| intros Hbad; simpl in Hbad; discriminate].
    intros Hfill Hdistinct Hfresh.
    apply NoDup_cons in Hdistinct as [Hcell Hdistinct].
    assert (Hset : dict_set cell (new_block block) cells
                   = (cells ++ [(cell, new_block block)])%list).
    { apply dict_set_fresh, Hfresh. left. }
    rewrite Hset in Hfill.
    rewrite (IH _ _ Hfill Hdistinct).
    + rewrite fmap_app, <- app_assoc. reflexivity.
    + intros key Hkey. rewrite fmap_app. simpl.
      apply not_elem_of_app. split.
      * apply Hfresh. right. exact Hkey.
      * intros ->%list_elem_of_singleton. contradiction.
Qed.

Lemma fixed_cells_are_not_ground (cell : nat * nat) :
  cell ∈ (trunks ++ leaves ++ [(14, 8)%nat])%list ->
  is_ground (fst cell) (snd cell) = false.
Proof.
  unfold trunks, leaves. simpl. intros Hcell.
  repeat (apply elem_of_cons in Hcell as [-> | Hcell]; [reflexivity |]).
  inversion Hcell.
Qed.

(** X24: The cells [load_simple_world] fills: when the sample has one kind for
    each ground cell and every block can be created, the dictionary holds
    the ground cells, then the four trunk cells, then the nine leaf cells,
    each once; no trunk or leaf replaces a ground block, and the cell
    (14, 8) of the candle flame block holds no other block.  On a grid of
    at least 15 columns and 9 rows all these cells lie inside the grid. *)
Theorem loaded_cells_are_distinct (kinds : list string) (width height : nat)
    (cells : list ((nat * nat) * Block)) :
  length kinds = length (ground_cells width height) ->
  build_cells kinds width height = Return cells ->
  cells.*1 = (ground_cells width height ++ trunks ++ leaves)%list /\
  NoDup (cells.*1 ++ [(14, 8)%nat]) /\
  ((15 <= width)%nat -> (9 <= height)%nat ->
   Forall (fun cell => (fst cell < width)%nat /\ (snd cell < height)%nat)
          (cells.*1 ++ [(14, 8)%nat])).
Proof.
  intros Hkinds. unfold build_cells, and_then.
  destruct (fill_cells (combine (ground_cells width height) kinds) [])
    as [ground |] eqn:Hground; [| intros Hbad; simpl in Hbad; discriminate].
  destruct (fill_cells (map (fun trunk => (trunk, "wood")) trunks) ground)
    as [trunked |] eqn:Htrunks; [| intros Hbad; simpl in Hbad; discriminate].
  intros Hleaves.
  assert (Hfixed : NoDup (trunks ++ leaves ++ [(14, 8)%nat])).
  { unfold trunks, leaves. compute_done. }
  apply NoDup_app in Hfixed as (Htrunks_distinct & Htrunks_apart & Hfixed).
  apply NoDup_app in Hfixed as (Hleaves_distinct & Hleaves_apart & _).
  assert (Hground_keys : ground.*1 = ground_cells width height).
  { rewrite (fill_cells_keys _ _ _ Hground).
    - simpl. apply fst_combine_same, Hkinds.
    - rewrite fst_combine_same by exact Hkinds. apply NoDup_ground_cells.
    - intros key _. simpl. apply not_elem_of_nil. }
  assert (Hnot_ground : forall cell,
             cell ∈ (trunks ++ leaves ++ [(14, 8)%nat])%list ->
             cell ∉ ground_cells width height).
  { intros cell Hcell (_ & _ & Hyes)%elem_of_ground_cells.
    rewrite (fixed_cells_are_not_ground cell Hcell) in Hyes. discriminate. }
  assert (Htrunk_keys : trunked.*1 = (ground_cells width height ++ trunks)%list).
  { rewrite (fill_cells_keys _ _ _ Htrunks).
    - rewrite Hground_keys. reflexivity.
    - exact Htrunks_distinct.
    - intros key Hkey. rewrite Hground_keys. apply Hnot_ground.
      apply elem_of_app. left. exact Hkey. }
  assert (Hkeys : cells.*1 = (ground_cells width height ++ trunks ++ leaves)%list).
  { rewrite (fill_cells_keys _ _ _ Hleaves).
    - rewrite Htrunk_keys, <- app_assoc. reflexivity.
    - exact Hleaves_distinct.
    - intros key Hkey. rewrite Htrunk_keys. apply not_elem_of_app. split.
      + apply Hnot_ground. apply elem_of_app. right. apply elem_of_app. left. exact Hkey.
      + intros Htrunk. apply (Htrunks_apart key Htrunk).
        apply elem_of_app. left. exact Hkey. }
  split; [exact Hkeys | split].
  - rewrite Hkeys, <- !app_assoc. apply NoDup_app. split; [apply NoDup_ground_cells |].
    split; [intros cell Hcell Hfix; exact (Hnot_ground cell Hfix Hcell) |].
    unfold trunks, leaves. compute_done.
  - intros Hwidth Hheight. rewrite Hkeys, <- !app_assoc. apply Forall_app. split.
    + apply Forall_forall. intros cell (Hx & Hy & _)%elem_of_ground_cells. auto.
    + unfold trunks, leaves. simpl. repeat constructor; simpl; lia.
Qed.

(** X25: [load_simple_world] changes the world only once every block of the
    ground, the trunk and the leaves has been created: if it raises, the
    world is as it was, and the error is that of the block that could not
    be created.  Without a break table for "wood", which the trunk needs,
    it always raises.  Otherwise it adds the cells in the order of the
    dictionary, then the candle flame block at (14, 8), then the bird, the
    sheep and the bee. *)
Theorem load_is_all_or_nothing (kinds : list string) (world : World) :
  let run := load_simple_world kinds world in
  let size := get_grid_size world in
  (forall e, fst run = Raise e ->
     snd run = world /\ build_cells kinds (fst size) (snd size) = Raise e) /\
  (BREAK_TABLES !! "wood" = None -> exists e, run = (Raise e, world)) /\
  (forall cells,
     build_cells kinds (fst size) (snd size) = Return cells ->
     run = (Return tt,
            add_mob (NewBee "bee" (5, 5)) 400 100
              (add_mob (NewSheep "sheep" (60, 30)) 400 100
                 (add_mob (NewBird "friendly_bird" (12, 12)) 400 100
                    (add_block_to_grid (new_block (TrickCandleFlameBlock (PNum 0))) 14 8
                       (fold_left
                          (fun world '((i, j), block) => add_block_to_grid block i j world)
                          cells world)))))).
Proof.
  intros run size.
  assert (Hrun : run
                 = match build_cells kinds (fst size) (snd size) with
                   | Return cells =>
                       (Return tt,
                        add_mob (NewBee "bee" (5, 5)) 400 100
                          (add_mob (NewSheep "sheep" (60, 30)) 400 100
                             (add_mob (NewBird "friendly_bird" (12, 12)) 400 100
                                (add_block_to_grid
                                   (new_block (TrickCandleFlameBlock (PNum 0))) 14 8
                                   (fold_left
                                      (fun world '((i, j), block) =>
                                         add_block_to_grid block i j world)
                                      cells world)))))
                   | Raise e => (Raise e, world)
                   end).
  { subst run size. unfold load_simple_world, bind at 1, get.
    destruct (get_grid_size world) as [width height]. simpl.
    unfold bind at 1, lift at 1.
    destruct (build_cells kinds width height); reflexivity. }
  rewrite Hrun. clear Hrun run.
  split; [| split].
  - intros e. destruct (build_cells kinds (fst size) (snd size)) as [cells | e'];
      simpl; intros Hraise; [discriminate Hraise |].
    injection Hraise as ->. auto.
  - intros Hwood.
    assert (Hfails : exists e, build_cells kinds (fst size) (snd size) = Raise e).
    { unfold build_cells, and_then.
      destruct (fill_cells (combine (ground_cells (fst size) (snd size)) kinds) []);
        [| eauto].
      unfold trunks. simpl. unfold create_block, in_dict.
      rewrite bool_decide_eq_false_2 by (rewrite Hwood; intros [? [=]]).
      simpl. eauto. }
    destruct Hfails as [e ->]. eauto.
  - intros cells ->. reflexivity.
Qed.

End LoaderFacts.

(** ** The methods run on the concrete collaborators *)

Import Fixture.

(** C1 at a "health" effect of strength 2 on a player whose food is 10 of
    20: the food is changed. *)
Lemma run_effect_ignores_tag_witness :
  let self := game starting_hot_bar empty_grid hungry_player in
  run_effect [PStr "health"; PNum 2] self
  = (Return tt, set_player (change_food (PNum 2)) self) /\
  food (_player (snd (run_effect [PStr "health"; PNum 2] self))) = 12%Q /\
  health (_player (snd (run_effect [PStr "health"; PNum 2] self))) = 20%Q.
Proof.
  intros self.
  assert (Hkind : "health" = "food" \/ "health" = "health") by (right; reflexivity).
  assert (Hfood : (get_food (_player self) < _max_food (_player self))%Q) by reflexivity.
  pose proof (proj1 (run_effect_ignores_tag "health" (PNum 2) self Hkind) Hfood) as Hrun.
  split; [exact Hrun |]. rewrite Hrun. split; reflexivity.
Defined.

(** C3 at a player with food 20 mining a stone block with the pickaxe: the
    food goes down by 0.5 and the health stays. *)
Lemma mine_block_costs_food_then_health_witness :
  let self := game starting_hot_bar empty_grid new_player in
  let block := block_at_3_4 (ResourceBlock "stone" ∅) (Some (item_drops "stone" 1)) in
  let run := mine_block (1 # 2) (fun _ => (0, 0)) block 100 150 self in
  is_mined (snd run) = true /\
  _player (snd (fst run)) = change_food (PNum (-(1#2))) (_player self) /\
  _player (snd (fst run)) = mkPlayer (39 # 2) 20 20 20.
Proof.
  intros self block run.
  assert (Hmined : is_mined (snd run) = true) by reflexivity.
  assert (Hfood : (0 < get_food (_player self))%Q) by reflexivity.
  pose proof (proj1 (mine_block_costs_food_then_health
                       (1 # 2) (fun _ => (0, 0)) block 100 150 self Hmined) Hfood) as Hrun.
  split; [exact Hmined | split; [exact Hrun |]].
  fold run in Hrun. rewrite Hrun. reflexivity.
Defined.

(** C10 at the sample 0.5. *)
Lemma drops_bound_before_read_witness :
  let self := game starting_hot_bar empty_grid new_player in
  let block := block_at_3_4 (ResourceBlock "stone" ∅) (Some (item_drops "stone" 1)) in
  ((0 <= 1 # 2)%Q /\ (1 # 2 < 1)%Q) /\
  Qltb (1 # 2) 1 = true /\
  fst (fst (mine_block (1 # 2) (fun _ => (0, 0)) block 100 150 self))
  <> Raise (UnboundLocalError "drops").
Proof.
  intros self block.
  assert (Hluck : (0 <= 1 # 2)%Q /\ (1 # 2 < 1)%Q) by (split; [discriminate | reflexivity]).
  destruct (drops_bound_before_read (1 # 2) (fun _ => (0, 0)) block 100 150 self Hluck)
    as [Hguard Hbound].
  split; [exact Hluck | split; [exact Hguard | apply Hbound]].
Defined.

(** C8 at three entries: an unknown category, a known item, a known block. *)
Lemma dispatch_drop_by_category_witness :
  let self := game starting_hot_bar empty_grid new_player in
  dispatch_drop 112 144 (2, 1) 0 (PStr "effect", [PStr "food"; PNum 2]) (100, 150) self
  = (Raise (KeyError_unknown_drop_category (PStr "effect")), self) /\
  dispatch_drop 112 144 (2, 1) 4 (PStr "item", [PStr "dirt"]) (100, 150) self
  = (Return (114, 145),
     set_world (add_item (mkDroppedItem (BlockItem "dirt")) 114 145) self) /\
  dispatch_drop 112 144 (2, 1) 0 (PStr "block", [PStr "mayhem"; PNum 1]) (100, 150) self
  = (Return (100, 150),
     set_world (add_block (new_block (TrickCandleFlameBlock (PNum 1))) 100 150) self).
Proof.
  intros self.
  assert (Hnot_item : PStr "effect" <> PStr "item") by discriminate.
  assert (Hnot_block : PStr "effect" <> PStr "block") by discriminate.
  split; [| split].
  - exact (proj1 (proj1 (dispatch_drop_by_category 112 144 (2, 1) 0 (PStr "effect")
                           [PStr "food"; PNum 2] 100 150 self) Hnot_item Hnot_block)).
  - exact (proj1 (proj2 (dispatch_drop_by_category 112 144 (2, 1) 4 (PStr "item")
                           [PStr "dirt"] 100 150 self)) eq_refl).
  - exact (proj2 (proj2 (dispatch_drop_by_category 112 144 (2, 1) 0 (PStr "block")
                           [PStr "mayhem"; PNum 1] 100 150 self)) eq_refl).
Defined.

(** C8 as stated fails: a hive mined with the right tool drops five
    [("item", ("bee",))] entries, and [create_item] knows no "bee"; the
    first entry raises the factory's error and no dropped item is added. *)
Lemma item_drop_of_unknown_item_adds_nothing :
  let self := game starting_hot_bar empty_grid new_player in
  let hive := block_at_3_4 (HiveBlock "hive" ∅) None in
  let run := mine_block (1 # 2) (fun _ => (0, 0)) hive 100 150 self in
  get_drops (1 # 2) true (snd run) = Some (item_drops "bee" 5) /\
  fst (fst run) = Raise (KeyError_no_item [PStr "bee"]) /\
  _world (snd (fst run)) = [RemoveItem (ThingBlock (mined_at_3_4 (HiveBlock "hive" ∅) None))] /\
  dispatch_drop 112 144 (0, 0) 0 (PStr "item", [PStr "bee"]) (100, 150) self
  = (Raise (KeyError_no_item [PStr "bee"]), self).
Proof. vm_compute. repeat split; reflexivity. Qed.

(** C9 at a right click with a stone pickaxe, alone in its stack, in the
    selected cell: the pickaxe is gone from the hot bar and nothing was
    placed. *)
Lemma right_click_consumes_one_witness :
  let self := game pickaxe_in_hand empty_grid new_player in
  let stack := mkStack (ATool (Tool.init "stone_pickaxe" "pickaxe" 132)) 1 in
  let run := _right_click (100, 150) self in
  Items.place (stack_item stack) = None /\
  getitem (0, 2)%nat (_hot_bar (snd run)) = None /\
  fst run = Return tt /\ _world (snd run) = [].
Proof.
  intros self stack run.
  assert (Hnothing : get_thing (fst (_target_position self)) (snd (_target_position self))
                               (_world self) = None) by reflexivity.
  assert (Hselected : get_selected (_hot_bar self) = Some (0, 2)%nat) by reflexivity.
  assert (Hstack : getitem (0, 2)%nat (_hot_bar self) = Some stack) by reflexivity.
  assert (Hplace : Items.place (stack_item stack) = None) by reflexivity.
  destruct (right_click_consumes_one (100, 150) (0, 2)%nat stack self
              Hnothing Hselected Hstack) as (_ & Hcell & Hreturn).
  destruct (Hreturn (or_introl Hplace)) as [Houtcome Hworld].
  split; [exact Hplace | split; [exact Hcell | split; [exact Houtcome | exact Hworld]]].
Defined.

(** C5 at a dropped dirt item met with the starting hot bar, which has
    room: the item is taken and removed, the collision ignored. *)
Lemma pickup_hot_bar_then_inventory_witness :
  let self := game starting_hot_bar full_grid new_player in
  let dropped_item := mkDroppedItem (BlockItem "dirt") in
  let run := _handle_player_collide_item dropped_item self in
  fst (add_item_to_grid (get_item dropped_item) (_hot_bar self)) = true /\
  fst run = false /\
  _world (snd run) = [RemoveItem (ThingDroppedItem dropped_item)] /\
  _inventory (snd run) = _inventory self.
Proof.
  intros self dropped_item run.
  assert (Htook : fst (add_item_to_grid (get_item dropped_item) (_hot_bar self)) = true)
    by reflexivity.
  destruct (pickup_hot_bar_then_inventory dropped_item self)
    as (_ & Hremoved & _ & _ & Hfirst & _).
  destruct (Hremoved (or_introl Htook)) as [Hignored Hworld].
  split; [exact Htook | split; [exact Hignored | split; [exact Hworld | exact (Hfirst Htook)]]].
Defined.

(** C6 on the code: with every cell of the hot bar and of the inventory
    taken, the dropped item stays in the world, but the handler returns
    [True], the value that reports a valid collision, where its docstring
    promises [False] in every case. *)
Theorem full_pickup_reports_valid_collision :
  let self := game full_grid full_grid new_player in
  let dropped_item := mkDroppedItem (BlockItem "dirt") in
  fst (add_item_to_grid (get_item dropped_item) (_hot_bar self)) = false /\
  fst (add_item_to_grid (get_item dropped_item) (_inventory self)) = false /\
  _handle_player_collide_item dropped_item self = (true, self) /\
  _world (snd (_handle_player_collide_item dropped_item self)) = [].
Proof. vm_compute. repeat split; reflexivity. Qed.


(** ** Further runs on the concrete collaborators *)

(** The stone pickaxe of the factory is fresh. *)
Lemma created_tools_are_fresh_witness :
  let pickaxe := Tool.init "stone_pickaxe" "pickaxe" 132 in
  create_item [PStr "pickaxe"; PStr "stone"] = Return (ATool pickaxe) /\
  _durability pickaxe = _max_durability pickaxe /\ 0 < _durability pickaxe /\
  Tool.can_attack pickaxe = true.
Proof.
  intros pickaxe.
  assert (Hcreated : create_item [PStr "pickaxe"; PStr "stone"] = Return (ATool pickaxe))
    by reflexivity.
  destruct (created_tools_are_fresh _ _ Hcreated) as (Hfull & Hpositive & Hable & _).
  split; [exact Hcreated | split; [exact Hfull | split; [exact Hpositive | exact Hable]]].
Defined.

(** A stone wand is of an unregistered kind, and a triple is no
    identifier at all. *)
Lemma create_item_failures_witness :
  create_item [PStr "wand"; PStr "stone"]
  = Raise (KeyError_no_item [PStr "wand"; PStr "stone"]) /\
  create_item [PStr "pickaxe"; PStr "stone"; PStr "big"]
  = Raise (KeyError_no_item [PStr "pickaxe"; PStr "stone"; PStr "big"]).
Proof.
  assert (Hwand : in_set (PStr "wand") MATERIAL_TOOL_TYPES = false \/
                  in_dict (PStr "stone") TOOL_DURABILITIES = false)
    by (left; reflexivity).
  assert (Hone : length [PStr "pickaxe"; PStr "stone"; PStr "big"] <> 1%nat)
    by (simpl; lia).
  assert (Htwo : length [PStr "pickaxe"; PStr "stone"; PStr "big"] <> 2%nat)
    by (simpl; lia).
  split.
  - exact (proj2 (proj2 (create_item_failures [PStr "wand"; PStr "stone"]))
                 _ _ eq_refl Hwand).
  - exact (proj1 (proj2 (create_item_failures
                           [PStr "pickaxe"; PStr "stone"; PStr "big"])) Hone Htwo).
Defined.

(** "stone" is a key of the break tables. *)
Lemma break_table_entry_wins_witness :
  create_block [PStr "stone"]
  = Return (ResourceBlock "stone" {[ "pickaxe" := (3 # 2, true)%Q ]}).
Proof.
  assert (Hentry : BREAK_TABLES !! "stone" = Some {[ "pickaxe" := (3 # 2, true)%Q ]})
    by reflexivity.
  assert (Hleaf : "stone" <> "leaf") by discriminate.
  exact (proj1 (break_table_entry_wins "stone" _ Hentry) Hleaf).
Defined.

(** "wool" is no key of the break tables, "wood" is. *)
Lemma special_block_needs_base_table_witness :
  create_block [PStr "wool"]
  = Return (WoolBlock "wool" {[ "hand" := (2 # 1, false)%Q; "axe" := (1 # 1, true)%Q ]}).
Proof.
  assert (Habsent : BREAK_TABLES !! "wool" = None) by reflexivity.
  pose proof (proj1 (proj2 (proj2 (special_block_needs_base_table "wool" Habsent)))
                    eq_refl) as Hwool.
  exact Hwool.
Defined.

(** A candle flame block of stage 3, asked for with a part too many. *)
Lemma create_block_tuple_shapes_witness :
  create_block [PStr "mayhem"; PNum 3; PStr "more"] = Return (TrickCandleFlameBlock (PNum 3)) /\
  create_block [PStr "stone"; PNum 3]
  = Raise (KeyError_no_block [PStr "stone"; PNum 3]).
Proof.
  assert (Hstone : PStr "stone" <> PStr "mayhem") by discriminate.
  destruct (create_block_tuple_shapes (PStr "mayhem") (PNum 3) [PStr "more"] 0)
    as (_ & Hmayhem & _).
  destruct (create_block_tuple_shapes (PStr "stone") (PNum 3) [] 0)
    as (_ & _ & Hother & _).
  split; [exact (Hmayhem eq_refl) | exact (Hother Hstone)].
Defined.

(** A honey block gives five honey items. *)
Lemma own_drops_are_known_items_witness :
  let honey := mkBlock (HoneyBlock "honey" {[ "hand" := (2 # 1, false)%Q;
                                                "axe" := (1 # 1, true)%Q ]})
                       (112, 144) false None in
  get_drops (1 # 2) false honey = None /\
  create_item [PStr "honey"] = Return (BlockItem "honey") /\
  exists n, (0 < n)%nat /\ get_drops (1 # 2) true honey = Some (item_drops "honey" n).
Proof.
  intros honey.
  assert (Habsent : BREAK_TABLES !! "honey" = None) by reflexivity.
  assert (Hcreate : create_block [PStr "honey"] = Return (class_of honey)) by reflexivity.
  assert (Hid : "honey" ∈ ["crafting_table"; "diamond"; "wool"; "bed"; "honey"; "furnace"])
    by (repeat constructor).
  exact (proj1 (own_drops_are_known_items (1 # 2) honey "honey" _ Habsent Hcreate eq_refl)
               Hid).
Defined.

(** Drop 7 with the largest jitter. *)
Lemma dropped_items_stay_by_the_block_witness :
  item_position 112 144 (2, 2) 7 = (114, 157) /\
  112 - 16 <= 114 < 112 + 16 /\ 144 - 16 <= 157 < 144 + 16.
Proof.
  assert (Hx : 0 <= fst (2, 2) <= 2) by (simpl; lia).
  assert (Hy : 0 <= snd (2, 2) <= 2) by (simpl; lia).
  pose proof (dropped_items_stay_by_the_block 112 144 (2, 2) 7 Hx Hy) as Hnear.
  split; [reflexivity |]. exact (proj2 Hnear).
Defined.

(** Drops 1 and 10 share a place; drops 1 and 4 do not. *)
Lemma drop_tiling_has_nine_places_witness :
  item_position 112 144 (0, 0) (1 + 9) = item_position 112 144 (0, 0) 1 /\
  item_position 112 144 (2, 2) 1 <> item_position 112 144 (0, 0) (1 + 3).
Proof.
  destruct (drop_tiling_has_nine_places 112 144 (2, 2) (0, 0) 1 3) as [_ Hapart].
  destruct (drop_tiling_has_nine_places 112 144 (0, 0) (0, 0) 1 3) as [Hsame _].
  split; [exact Hsame |].
  apply Hapart; simpl; lia.
Defined.

Section ToughBlock.
#[local] Existing Instance tough_block_ops | 0.

(** A stone block that resists the pickaxe: nothing is spent but one
    point of the pickaxe. *)
Lemma unfinished_attack_spends_nothing_witness :
  let self := game starting_hot_bar empty_grid new_player in
  let block := block_at_3_4 (ResourceBlock "stone" ∅) (Some (item_drops "stone" 1)) in
  let run := mine_block (1 # 2) (fun _ => (0, 0)) block 100 150 self in
  is_mined (snd run) = false /\
  fst (fst run) = Return tt /\ _world (snd (fst run)) = [] /\
  _player (snd (fst run)) = new_player.
Proof.
  intros self block run.
  assert (Hstays : is_mined (snd run) = false) by reflexivity.
  destruct (unfinished_attack_spends_nothing (1 # 2) (fun _ => (0, 0)) block 100 150 self
              Hstays) as (Houtcome & Hworld & Hplayer & _).
  split; [exact Hstays | split; [exact Houtcome | split; [exact Hworld | exact Hplayer]]].
Defined.

(** The pickaxe in cell (0, 2) after an attack without success. *)
Lemma mine_block_wears_tools_by_one_witness :
  let self := game starting_hot_bar empty_grid new_player in
  let block := block_at_3_4 (ResourceBlock "stone" ∅) (Some (item_drops "stone" 1)) in
  let pickaxe := Tool.init "stone_pickaxe" "pickaxe" 132 in
  exists worn,
    getitem (0, 2)%nat
      (_hot_bar (snd (fst (mine_block (1 # 2) (fun _ => (0, 0)) block 100 150 self))))
    = Some (mkStack (ATool worn) 1) /\
    131 <= _durability worn <= 132 /\ _max_durability worn = 132.
Proof.
  intros self block pickaxe.
  assert (Hstack : getitem (0, 2)%nat (_hot_bar self) = Some (mkStack (ATool pickaxe) 1))
    by reflexivity.
  destruct (mine_block_wears_tools_by_one (1 # 2) (fun _ => (0, 0)) block 100 150 self
              (0, 2)%nat pickaxe 1 Hstack) as (worn & Hcell & Hworn & _ & Hmax & _).
  exists worn. split; [exact Hcell | split; [exact Hworn | exact Hmax]].
Defined.

End ToughBlock.

Section SoftBlock.
#[local] Existing Instance soft_block_ops | 0.

(** A crafting table broken with the wrong item: it is gone and nothing
    is dropped. *)
Lemma unsuitable_item_wins_nothing_witness :
  let self := game starting_hot_bar empty_grid new_player in
  let cls := CraftingTableBlock "crafting_table" ∅ in
  let run := mine_block (1 # 2) (fun _ => (0, 0)) (block_at_3_4 cls None) 100 150 self in
  fst (fst run) = Return tt /\
  _world (snd (fst run)) = [RemoveItem (ThingBlock (mined_at_3_4 cls None))].
Proof.
  intros self cls run.
  pose (answer := mine (snd (get_holding self)) (fst (get_holding self)) (1 # 2)
                       (block_at_3_4 cls None)).
  assert (Hmined : is_mined (snd answer) = true) by reflexivity.
  assert (Hluck : (1 # 2 < 1)%Q) by reflexivity.
  assert (Hunsuitable : fst (fst answer) = false) by reflexivity.
  assert (Hclass : drops_defined_here (class_of (snd answer)) = true) by reflexivity.
  exact (unsuitable_item_wins_nothing (1 # 2) (fun _ => (0, 0)) (block_at_3_4 cls None)
           100 150 self Hmined Hluck Hunsuitable Hclass).
Defined.

End SoftBlock.

(** Five honey items, dropped from index 0. *)
Lemma item_drops_all_land_witness :
  let self := game starting_hot_bar empty_grid new_player in
  dispatch_drops 112 144 (fun _ => (1, 1)) 0 (item_drops "honey" 5) (100, 150) self
  = (Return tt,
     set_world (drop_items 112 144 (fun _ => (1, 1)) 0 (repeat (BlockItem "honey") 5)) self)
  /\ length (drop_items 112 144 (fun _ => (1, 1)) 0 (repeat (BlockItem "honey") 5)
                        (_world self)) = 5%nat.
Proof.
  intros self.
  assert (Hdrops : Forall2 drops_item (item_drops "honey" 5) (repeat (BlockItem "honey") 5))
    by (repeat constructor).
  split; [| reflexivity].
  exact (item_drops_all_land 112 144 (fun _ => (1, 1)) _ _ 0 (100, 150) self Hdrops).
Defined.

(** Two wool items, then an entry of an unknown category, then one more
    wool item that is never reached. *)
Lemma drops_before_a_failure_stay_witness :
  let self := game starting_hot_bar empty_grid new_player in
  let run :=
    dispatch_drops 112 144 (fun _ => (1, 1)) 0
      (item_drops "wool" 2 ++ (PStr "mob", [PStr "sheep"]) :: item_drops "wool" 1)
      (100, 150) self in
  fst run = Raise (KeyError_unknown_drop_category (PStr "mob")) /\
  _world (snd run)
  = [AddItem (mkDroppedItem (BlockItem "wool")) 102 134;
     AddItem (mkDroppedItem (BlockItem "wool")) 113 134].
Proof.
  intros self run.
  assert (Hdrops : Forall2 drops_item (item_drops "wool" 2) (repeat (BlockItem "wool") 2))
    by (repeat constructor).
  assert (Hbad : forall xy' (self' : Ninedraft (Player := Player) (World := list WorldCall)),
             dispatch_drop 112 144 (1, 1) (0 + length (item_drops "wool" 2))
                           (PStr "mob", [PStr "sheep"]) xy' self'
             = (Raise (KeyError_unknown_drop_category (PStr "mob")), self'))
    by (intros [x y] self'; reflexivity).
  assert (Hrun : run
                 = (Raise (KeyError_unknown_drop_category (PStr "mob")),
                    set_world (drop_items 112 144 (fun _ => (1, 1)) 0
                                          (repeat (BlockItem "wool") 2)) self))
    by exact (drops_before_a_failure_stay 112 144 (fun _ => (1, 1)) _ _ 0 (100, 150) self
                (PStr "mob", [PStr "sheep"]) (item_drops "wool" 1) _ Hdrops Hbad).
  rewrite Hrun. split; reflexivity.
Defined.

(** An effect of an unknown kind, and one with a part too many. *)
Lemma no_effect_defined_witness :
  let self := game starting_hot_bar empty_grid new_player in
  run_effect [PStr "poison"; PNum 2] self
  = (Raise (KeyError_no_effect [PStr "poison"; PNum 2]), self) /\
  run_effect [PStr "food"; PNum 2; PNum 3] self
  = (Raise (KeyError_no_effect [PStr "food"; PNum 2; PNum 3]), self).
Proof.
  intros self.
  assert (Hpoison : PStr "poison" <> PStr "crafting" /\ PStr "poison" <> PStr "food" /\
                    PStr "poison" <> PStr "health") by (repeat split; discriminate).
  split.
  - exact (proj1 (no_effect_defined [PStr "poison"; PNum 2] self) Hpoison).
  - exact (proj1 (no_effect_defined [PStr "food"; PNum 2; PNum 3] self) I).
Defined.

(** The furnace surface opens the 3x3 crafter. *)
Lemma crafting_needs_the_tool_tables_witness :
  let self := game starting_hot_bar empty_grid new_player in
  let run := _trigger_crafting (PStr "furnace") self in
  crafting_tools_registered = true /\
  fst run = Return tt /\
  exists crafter,
    _crafting_window (snd run) = Some (mkCraftingWindow (PStr "furnace") crafter) /\
    crafter_rows crafter = 3%nat /\ crafter_columns crafter = 3%nat /\
    length (crafter_recipes crafter) = 12%nat.
Proof.
  intros self run.
  assert (Hregistered : crafting_tools_registered = true) by reflexivity.
  assert (Hother : PStr "furnace" <> PStr "basic") by discriminate.
  destruct (proj1 (crafting_needs_the_tool_tables (PStr "furnace") self) Hregistered)
    as (Houtcome & crafter & Hwindow & _ & Hlarge).
  split; [exact Hregistered | split; [exact Houtcome |]].
  exists crafter. split; [exact Hwindow | exact (Hlarge Hother)].
Defined.

(** A right click on the crafting table that stands at the target. *)
Lemma using_a_thing_takes_nothing_witness :
  let self := game_on_stage pickaxe_in_hand new_player in
  let run := _right_click (100, 150) self in
  get_thing 100 150 (_world self) = Some (ThingBlock table_at_hand) /\
  _hot_bar (snd run) = _hot_bar self /\ _world (snd run) = _world self /\
  run = _trigger_crafting (PStr "crafting_table") self.
Proof.
  intros self run.
  assert (Htarget : get_thing (fst (_target_position self)) (snd (_target_position self))
                              (_world self) = Some (ThingBlock table_at_hand))
    by reflexivity.
  destruct (using_a_thing_takes_nothing (100, 150) _ self Htarget)
    as ((Hbar & Hworld & _) & _ & Htable).
  split; [exact Htarget | split; [exact Hbar | split; [exact Hworld |]]].
  exact (Htable table_at_hand "crafting_table" ∅ eq_refl eq_refl).
Defined.

(** A hungry player eats an apple, and a sated one is healed by it. *)
Lemma eating_feeds_or_heals_witness :
  let hungry := game apples_in_hand empty_grid hungry_player in
  let sated := game apples_in_hand empty_grid (mkPlayer 20 20 15 20) in
  _player (snd (_right_click (100, 150) hungry)) = mkPlayer 12 20 20 20 /\
  _player (snd (_right_click (100, 150) sated)) = mkPlayer 20 20 17 20 /\
  getitem (0, 1)%nat (_hot_bar (snd (_right_click (100, 150) hungry)))
  = Some (mkStack (FoodItem "apple" 2) 19).
Proof.
  intros hungry sated.
  assert (Hstack : forall player,
             getitem (0, 1)%nat (_hot_bar (game apples_in_hand empty_grid player))
             = Some (mkStack (FoodItem "apple" 2) 20)) by reflexivity.
  assert (Hhungry : (get_food (_player hungry) < _max_food (_player hungry))%Q)
    by reflexivity.
  assert (Hsated : ~ (get_food (_player sated) < _max_food (_player sated))%Q)
    by (intros Hlt; discriminate Hlt).
  assert (Hnothing : forall player,
             get_thing (fst (_target_position (game apples_in_hand empty_grid player)))
                       (snd (_target_position (game apples_in_hand empty_grid player)))
                       (_world (game apples_in_hand empty_grid player)) = None)
    by reflexivity.
  assert (Hselected : forall player,
             get_selected (_hot_bar (game apples_in_hand empty_grid player))
             = Some (0, 1)%nat) by reflexivity.
  destruct (eating_feeds_or_heals (100, 150) (0, 1)%nat "apple" 2 20 hungry
              (Hnothing _) (Hselected _) (Hstack _)) as (_ & Hbar & _ & Hfed & _).
  destruct (eating_feeds_or_heals (100, 150) (0, 1)%nat "apple" 2 20 sated
              (Hnothing _) (Hselected _) (Hstack _)) as (_ & _ & _ & _ & Hhealed).
  split; [| split].
  - rewrite (Hfed Hhungry). reflexivity.
  - rewrite (Hhealed Hsated). reflexivity.
  - rewrite Hbar. reflexivity.
Defined.

(** Dirt placed on the cell where the crafting table stands. *)
Lemma refused_placement_adds_nothing_witness :
  let self :=
    mkNinedraft (_world (game_on_stage dirt_in_hand new_player)) new_player dirt_in_hand
                empty_grid (HandItem "hands") None (0, 0) in
  let run := _right_click (100, 150) self in
  (exists msg, fst run = Raise (NotImplementedError msg)) /\
  _world (snd run) = _world self /\
  getitem (0, 0)%nat (_hot_bar (snd run)) = Some (mkStack (BlockItem "dirt") 19).
Proof.
  intros self run.
  assert (Hplace : Items.place (stack_item (mkStack (BlockItem "dirt") 20))
                   = Some [(PStr "block", [PStr "dirt"])]) by reflexivity.
  assert (Htaken : is_Some (get_block (fst (100, 150)) (snd (100, 150)) (_world self)))
    by (eexists; reflexivity).
  assert (Hnothing : get_thing (fst (_target_position self)) (snd (_target_position self))
                               (_world self) = None) by reflexivity.
  assert (Hselected : get_selected (_hot_bar self) = Some (0, 0)%nat) by reflexivity.
  assert (Hstack : getitem (0, 0)%nat (_hot_bar self)
                   = Some (mkStack (BlockItem "dirt") 20)) by reflexivity.
  destruct (refused_placement_adds_nothing (100, 150) (0, 0)%nat
              (mkStack (BlockItem "dirt") 20) _ self Hnothing Hselected Hstack Hplace)
    as (_ & Hfull & _).
  pose proof (Hfull [PStr "dirt"] eq_refl Htaken : run = _) as Hrun.
  rewrite Hrun. split; [eexists; reflexivity | split; reflexivity].
Defined.

(** Dirt placed on a free cell. *)
Lemma placed_block_goes_where_clicked_witness :
  let self := game dirt_in_hand empty_grid new_player in
  let run := _right_click (200, 80) self in
  fst run = Return tt /\
  _world (snd run)
  = [AddBlock (new_block (ResourceBlock "dirt"
                 {[ "hand" := (1 # 1, false)%Q; "shovel" := (2 # 5, true)%Q ]})) 200 80].
Proof.
  intros self run.
  assert (Hplace : Items.place (stack_item (mkStack (BlockItem "dirt") 20))
                   = Some [(PStr "block", [PStr "dirt"])]) by reflexivity.
  assert (Hnothing : get_thing (fst (_target_position self)) (snd (_target_position self))
                               (_world self) = None) by reflexivity.
  assert (Hselected : get_selected (_hot_bar self) = Some (0, 0)%nat) by reflexivity.
  assert (Hstack : getitem (0, 0)%nat (_hot_bar self)
                   = Some (mkStack (BlockItem "dirt") 20)) by reflexivity.
  assert (Hfree : get_block (fst (200, 80)) (snd (200, 80)) (_world self) = None)
    by reflexivity.
  assert (Hblock : create_block [PStr "dirt"]
                   = Return (ResourceBlock "dirt"
                       {[ "hand" := (1 # 1, false)%Q; "shovel" := (2 # 5, true)%Q ]}))
    by reflexivity.
  destruct (placed_block_goes_where_clicked (200, 80) (0, 0)%nat
              (mkStack (BlockItem "dirt") 20) (PStr "dirt") [] _ self
              Hnothing Hselected Hstack Hplace Hfree Hblock)
    as (Houtcome & Hworld & _).
  split; [exact Houtcome | exact Hworld].
Defined.

(** A sheep on step 7, and one without maximal health on step 100. *)
Lemma impulse_only_on_the_beat_witness :
  let grazing := mkMob 7 20 20 40 (3%R, 4%R) in
  let broken := mkMob 100 0 0 40 (3%R, 4%R) in
  Sheep.step 1 0 grazing = Return (super_step 1%R grazing) /\
  Sheep.step 1 0 broken = Raise ZeroDivisionError.
Proof.
  intros grazing broken.
  assert (Hoff : _steps grazing mod 100 <> 0) by (vm_compute; discriminate).
  assert (Hmax : _max_health broken = 0%R) by reflexivity.
  assert (Hbeat : _steps broken mod 100 = 0) by reflexivity.
  destruct (impulse_only_on_the_beat 1 0 grazing) as (Hsheep & _ & _).
  destruct (impulse_only_on_the_beat 1 0 broken) as (_ & _ & Hzero).
  split; [exact (proj2 (Hsheep Hoff)) | exact (proj1 (Hzero Hmax) Hbeat)].
Defined.


(** A health of 17.5 is shown as it is. *)
Lemma labels_show_the_nearest_half_witness :
  (_health_label (Status.set_health (35 # 2) (mkStatusView 20 20)) == 35 # 2)%Q.
Proof.
  assert (Hhalf : (35 # 2 == inject_Z 35 / 2)%Q) by reflexivity.
  destruct (labels_show_the_nearest_half (35 # 2) (mkStatusView 20 20))
    as (_ & _ & _ & Hexact & _).
  exact (Hexact 35 Hhalf).
Defined.

(** A click in range on a free cell. *)
Lemma left_click_needs_a_block_in_range_witness :
  let self := mkPointed (game starting_hot_bar empty_grid new_player) true in
  _left_click (1 # 2) (fun _ => (0, 0)) self = ((Return tt, self), None).
Proof.
  intros self.
  assert (Hfree : get_block (fst (_target_position (app_of self)))
                            (snd (_target_position (app_of self)))
                            (_world (app_of self)) = None) by reflexivity.
  destruct (left_click_needs_a_block_in_range (1 # 2) (fun _ => (0, 0)) (0, 0) self)
    as (_ & Hnothing & _).
  exact (Hnothing Hfree).
Defined.

(** The world of the game, 32 by 16 cells, with dirt everywhere. *)
Lemma loaded_cells_are_distinct_witness :
  exists cells : list ((nat * nat) * Block),
    build_cells (repeat "dirt" 278) 32 16 = Return cells /\
    length cells = 291%nat /\
    NoDup (cells.*1 ++ [(14, 8)%nat]) /\
    Forall (fun cell => (fst cell < 32)%nat /\ (snd cell < 16)%nat)
           (cells.*1 ++ [(14, 8)%nat]).
Proof.
  assert (Hkinds : length (repeat "dirt" 278) = length (ground_cells 32 16))
    by (vm_compute; reflexivity).
  destruct (build_cells (Block := Block) (repeat "dirt" 278) 32 16) as [cells | e] eqn:Hbuilt;
    [| vm_compute in Hbuilt; discriminate Hbuilt].
  destruct (loaded_cells_are_distinct (repeat "dirt" 278) 32 16 cells Hkinds Hbuilt)
    as (Hkeys & Hdistinct & Hinside).
  exists cells. split; [reflexivity | split; [| split; [exact Hdistinct |]]].
  - rewrite <- (length_fmap fst), Hkeys. vm_compute. reflexivity.
  - apply Hinside; lia.
Defined.

(** Without a break table for "wood" nothing is loaded. *)
Lemma load_is_all_or_nothing_witness :
  let bare : Tables :=
    {| BREAK_TABLES := {[ "dirt" := ∅ ]}; MATERIAL_TOOL_TYPES := ∅;
       TOOL_DURABILITIES := ∅ |} in
  exists e,
    load_simple_world (tables := bare) (World := list LoadCall) (repeat "dirt" 278) []
    = (Raise e, []).
Proof.
  intros bare.
  assert (Hwood : BREAK_TABLES (Tables := bare) !! "wood" = None) by reflexivity.
  exact (proj1 (proj2 (load_is_all_or_nothing (tables := bare) (repeat "dirt" 278) [])) Hwood).
Defined.
